(** * WeatherScrape: the daily weather mapper of [Daily_WeatherNONinf.py]

    A shallow embedding of the date conversion ([get_prophix_date]), the
    station mapper ([process_data]) and the table writer (the tail of
    [main]), with the properties the specification states about them.

    Layout:
    - [Py]: the Python values a decoded JSON payload is made of, with the
      operators the script applies to them, and exceptions as a result type;
    - [Datetime]: the part of [datetime] the script uses;
    - [Prophix]: [get_prophix_date];
    - [Mapper]: [process_data];
    - [Writer]: the append to the table at the end of [main];
    - [Spec]: the notions the specification speaks in;
    - [Run]: [write_log], [get_btac_data] and [main], and runs in a row;
    - [Notions]: notions for the properties beyond the specification;
    - [Examples], [MoreExamples]: sample payloads, dates and tables.

    The properties follow the definitions. *)

From Stdlib Require Import ZArith Lia Floats.SpecFloat.
From stdpp Require Import gmap strings list pretty.

Set Warnings "-register-all".
Open Scope Z_scope.

(** ** Python values and exceptions *)
Module Py.

(** The exceptions the script can meet. *)
Inductive exn : Type :=
  | TypeError
  | AttributeError
  | KeyError
  | ValueError
  | PermissionError.

(** A computation that returns or raises. *)
Inductive result (A : Type) : Type :=
  | Ok (a : A)
  | Raise (e : exn).
Arguments Ok {A} a.
Arguments Raise {A} e.

#[global] Instance result_ret : MRet result := fun A a => Ok a.
#[global] Instance result_bind : MBind result := fun A B k c =>
  match c with
  | Ok a => k a
  | Raise e => Raise e
  end.

Definition returns {A : Type} (c : result A) : Prop := exists a, c = Ok a.

(** What [json.loads] builds: [None], booleans, integers, floats, strings,
    lists, and dictionaries with string keys. *)
Inductive pyval : Type :=
  | PNone
  | PBool (b : bool)
  | PInt (n : Z)
  | PFloat (f : spec_float)
  | PStr (s : string)
  | PList (items : list pyval)
  | PDict (d : gmap string pyval).

(** [bool(v)]: what [not v], [if v:] and [v or w] test. *)
Definition truthy (v : pyval) : bool :=
  match v with
  | PNone => false
  | PBool b => b
  | PInt n => negb (n =? 0)
  | PFloat f => match f with S754_zero _ => false | _ => true end
  | PStr s => negb (String.eqb s "")
  | PList items => match items with [] => false | _ => true end
  | PDict d => negb (bool_decide (d = ∅))
  end.

(** [v or w]. *)
Definition py_or (v w : pyval) : pyval := if truthy v then v else w.

(** [k in s] on strings. *)
Fixpoint contains (k s : string) : bool :=
  String.prefix k s ||
  match s with
  | EmptyString => false
  | String _ rest => contains k rest
  end.

(** [s.lower()]: the letters A to Z go to a to z. A string is the
    sequence of its UTF-8 bytes here, in which a keyword, being ASCII, is a
    substring exactly when it is one of the text; the bytes outside A to Z
    are kept. *)
Definition lower_ascii (c : Ascii.ascii) : Ascii.ascii :=
  let n := Ascii.nat_of_ascii c in
  if (65 <=? n)%nat && (n <=? 90)%nat then Ascii.ascii_of_nat (n + 32) else c.

Fixpoint lower (s : string) : string :=
  match s with
  | EmptyString => EmptyString
  | String c rest => String (lower_ascii c) (lower rest)
  end.

(** [repr] of a float, a list or a dictionary. The script only searches
    that text for a keyword; the text itself is left to the interpreter. *)
Class PyRepr := py_repr : pyval -> string.

(** [str(v)]. *)
Definition py_str `{PyRepr} (v : pyval) : string :=
  match v with
  | PNone => "None"
  | PBool true => "True"
  | PBool false => "False"
  | PInt n => pretty n
  | PStr s => s
  | PFloat _ | PList _ | PDict _ => py_repr v
  end.

(** [r.get(key, dflt)]: only a dictionary has the method. *)
Definition py_get (r : pyval) (key : string) (dflt : pyval) : result pyval :=
  match r with
  | PDict d => Ok (default dflt (d !! key))
  | _ => Raise AttributeError
  end.

(** ['k' in v]: a key of a dictionary, an item of a list, a substring of a
    string; anything else is not a container. *)
Definition py_in (k : string) (v : pyval) : result bool :=
  match v with
  | PDict d => Ok (bool_decide (is_Some (d !! k)))
  | PList items =>
      Ok (existsb (fun x => match x with PStr s => String.eqb s k | _ => false end) items)
  | PStr s => Ok (contains k s)
  | _ => Raise TypeError
  end.

(** [v['k']]. *)
Definition py_getitem (v : pyval) (k : string) : result pyval :=
  match v with
  | PDict d => match d !! k with Some x => Ok x | None => Raise KeyError end
  | _ => Raise TypeError
  end.

(** [iter(v)], as the list of what it yields. A dictionary yields its
    keys and a string its characters. *)
Fixpoint chars (s : string) : list pyval :=
  match s with
  | EmptyString => []
  | String c rest => PStr (String c EmptyString) :: chars rest
  end.

Definition py_iter (v : pyval) : result (list pyval) :=
  match v with
  | PList items => Ok items
  | PDict d => Ok (PStr <$> (map_to_list d).*1)
  | PStr s => Ok (chars s)
  | _ => Raise TypeError
  end.

(** [len(v)]. *)
Definition py_len (v : pyval) : result Z :=
  match v with
  | PList items => Ok (Z.of_nat (length items))
  | PDict d => Ok (Z.of_nat (size d))
  | PStr s => Ok (Z.of_nat (String.length s))
  | _ => Raise TypeError
  end.

(** Left-pads [s] with zeros to [width] characters, as the [0] flag of a
    format specification does. *)
Definition zero_pad (width : nat) (s : string) : string :=
  String.concat "" (replicate (width - String.length s) "0") +:+ s.

(** [f"{n:03d}"]: the sign comes first and counts in the width. *)
Definition format_03d (n : Z) : string :=
  if n <? 0 then "-" +:+ zero_pad 2 (pretty (- n)) else zero_pad 3 (pretty n).

End Py.

(** ** Dates *)
Module Datetime.
Import Py.

(** A naive [datetime]. *)
Record datetime : Type := mk_datetime {
  year : Z; month : Z; day : Z;
  hour : Z; minute : Z; second : Z; microsecond : Z
}.

Definition MINYEAR : Z := 1.
Definition MAXYEAR : Z := 9999.

Definition is_leap (y : Z) : bool :=
  (y mod 4 =? 0) && (negb (y mod 100 =? 0) || (y mod 400 =? 0)).

Definition days_before_year (y : Z) : Z :=
  let p := y - 1 in p * 365 + p / 4 - p / 100 + p / 400.

Definition DAYS_IN_MONTH : list Z := [31; 28; 31; 30; 31; 30; 31; 31; 30; 31; 30; 31].

Definition days_in_month (y m : Z) : Z :=
  if (m =? 2) && is_leap y then 29
  else default 0 (DAYS_IN_MONTH !! Z.to_nat (m - 1)).

Definition days_before_month (y m : Z) : Z :=
  foldr Z.add 0 (take (Z.to_nat (m - 1)) DAYS_IN_MONTH)
  + (if (2 <? m) && is_leap y then 1 else 0).

(** [toordinal]: day 1 is 0001-01-01. *)
Definition ymd2ord (y m d : Z) : Z :=
  days_before_year y + days_before_month y m + d.

Definition toordinal (t : datetime) : Z := ymd2ord (year t) (month t) (day t).

Definition check_date_fields (y m d : Z) : bool :=
  (MINYEAR <=? y) && (y <=? MAXYEAR) && (1 <=? m) && (m <=? 12)
  && (1 <=? d) && (d <=? days_in_month y m).

Definition check_time_fields (h mi s us : Z) : bool :=
  (0 <=? h) && (h <=? 23) && (0 <=? mi) && (mi <=? 59)
  && (0 <=? s) && (s <=? 59) && (0 <=? us) && (us <=? 999999).

(** The values the class accepts. *)
Definition valid (t : datetime) : Prop :=
  check_date_fields (year t) (month t) (day t) = true /\
  check_time_fields (hour t) (minute t) (second t) (microsecond t) = true.

(** [datetime(y, m, d)]: midnight of that day, or [ValueError]. *)
Definition datetime_new (y m d : Z) : result datetime :=
  if check_date_fields y m d then Ok (mk_datetime y m d 0 0 0 0)
  else Raise ValueError.

(** A [timedelta], kept normalised: [0 <= seconds < 86400] and
    [0 <= microseconds < 1000000]. *)
Record timedelta : Type := mk_timedelta {
  days : Z; seconds : Z; microseconds : Z
}.

Definition timedelta_new (d s us : Z) : timedelta :=
  let total := (d * 86400 + s) * 1000000 + us in
  let total_s := total / 1000000 in
  mk_timedelta (total_s / 86400) (total_s mod 86400) (total mod 1000000).

(** [a - b] on naive datetimes. *)
Definition datetime_sub (a b : datetime) : timedelta :=
  let secs t := second t + minute t * 60 + hour t * 3600 in
  timedelta_new (toordinal a - toordinal b) (secs a - secs b)
                (microsecond a - microsecond b).

(** [strftime('%Y-%m-%d')], as the C library of the interpreter writes
    it: the month and the day in two digits, the year as it is, so that
    year 999 gives 999-12-31. From year 1000 on the year has its four
    digits. *)
Definition strftime_ymd (t : datetime) : string :=
  pretty (year t) +:+ "-" +:+ zero_pad 2 (pretty (month t))
  +:+ "-" +:+ zero_pad 2 (pretty (day t)).

End Datetime.

(** ** The fiscal date code *)
Module Prophix.
Import Py Datetime.

Definition get_prophix_date (date_obj : datetime) : result string :=
  let start_year :=
    if 5 <=? month date_obj then year date_obj else year date_obj - 1 in
  fiscal_start ← datetime_new start_year 5 1;
  let day_num := days (datetime_sub date_obj fiscal_start) + 1 in
  Ok (pretty start_year +:+ "D" +:+ format_03d day_num).

End Prophix.

(** ** The mapper *)
Module Mapper.
Import Py Datetime Prophix.

(** One row of the table: the dictionary [new_row], with the values as
    the script puts them in, before pandas makes columns of them. *)
Record OutputRow : Type := mk_row {
  ProphixDate : string;
  Date : string;
  Location : string;
  NewSno : pyval;
  SnoDepth : pyval;
  SnoFall_Tot : pyval;
  Max_Temp : pyval;
  Min_Temp : pyval;
  AvgWind : pyval;
  MaxGust : pyval;
  TotalWind : pyval
}.

(** The eight metric columns, in the order of the table. *)
Definition metrics (r : OutputRow) : list pyval :=
  [NewSno r; SnoDepth r; SnoFall_Tot r; Max_Temp r; Min_Temp r;
   AvgWind r; MaxGust r; TotalWind r].

(** The station keys the metric columns are read from, in the same order. *)
Definition metric_keys : list string :=
  ["newsnow"; "depth"; "ttlsnowfall"; "maxtemp"; "mintemp";
   "avewindspd"; "maxgust"; "ttlwindmiles"].

Definition target_defs : list (string * list string * bool) :=
  [("Summit", ["summit"], false);
   ("RV_Bowl", ["rbowl"; "rendezvous bowl"], false);
   ("Raymer", [], true);
   ("MidMtn", ["mid mtn"; "mid mountain"], false);
   ("Buff", ["buff"], false);
   ("Base", ["base"], false)].

Section WithRepr.
Context `{PyRepr}.

(** [str(row.get('display_name', '')).lower()] *)
Definition d_name (row : pyval) : result string :=
  v ← py_get row "display_name" (PStr "");
  mret (lower (py_str v)).

(** [any(k in name for k in keywords)] *)
Definition any_in (keywords : list string) (name : string) : bool :=
  existsb (fun k => contains k name) keywords.

(** The scan of the stations: the first row whose name holds a keyword.
    Rows after it are not looked at. *)
Fixpoint first_match (keywords : list string) (rows : list pyval)
  : result (option pyval) :=
  match rows with
  | [] => mret None
  | row :: rest =>
      name ← d_name row;
      if any_in keywords name then mret (Some row)
      else first_match keywords rest
  end.

(** [next((r for r in rows_data if k in ...), {})] *)
Definition next_station (k : string) (rows : list pyval) : result pyval :=
  found ← first_match [k] rows;
  mret (default (PDict ∅) found).

(** [a.get(key) or b.get(key)] *)
Definition get_or (a b : pyval) (key : string) : result pyval :=
  x ← py_get a key PNone;
  if truthy x then mret x else py_get b key PNone.

(** The dictionary [raymer_merged]. *)
Definition raymer_merged (temp_node wind_node : pyval) : result pyval :=
  maxtemp ← py_get temp_node "maxtemp" PNone;
  mintemp ← py_get temp_node "mintemp" PNone;
  avewindspd ← py_get wind_node "avewindspd" PNone;
  maxgust ← py_get wind_node "maxgust" PNone;
  ttlwindmiles ← py_get wind_node "ttlwindmiles" PNone;
  newsnow ← get_or temp_node wind_node "newsnow";
  depth ← get_or temp_node wind_node "depth";
  ttlsnowfall ← get_or temp_node wind_node "ttlsnowfall";
  mret (PDict (list_to_map
    [("display_name", PStr "Raymer");
     ("maxtemp", maxtemp);
     ("mintemp", mintemp);
     ("avewindspd", avewindspd);
     ("maxgust", maxgust);
     ("ttlwindmiles", ttlwindmiles);
     ("newsnow", newsnow);
     ("depth", depth);
     ("ttlsnowfall", ttlsnowfall)])).

(** The value of [found_station] when the [if]/[else] of one target is
    done: [None] stands for Python's [None]. *)
Definition find_station (target_name : string) (keywords : list string)
    (is_merged : bool) (merged : pyval) (rows : list pyval)
  : result (option pyval) :=
  if is_merged && String.eqb target_name "Raymer" then mret (Some merged)
  else first_match keywords rows.

(** The dictionary [new_row]. *)
Definition new_row (prophix_date : string) (date_obj : datetime)
    (target_name : string) (station : pyval) : result OutputRow :=
  newsnow ← py_get station "newsnow" (PStr "");
  depth ← py_get station "depth" (PStr "");
  ttlsnowfall ← py_get station "ttlsnowfall" (PStr "");
  maxtemp ← py_get station "maxtemp" (PStr "");
  mintemp ← py_get station "mintemp" (PStr "");
  avewindspd ← py_get station "avewindspd" (PStr "");
  maxgust ← py_get station "maxgust" (PStr "");
  ttlwindmiles ← py_get station "ttlwindmiles" (PStr "");
  mret (mk_row prophix_date (strftime_ymd date_obj) target_name
          newsnow depth ttlsnowfall maxtemp mintemp
          avewindspd maxgust ttlwindmiles).

(** The loop over the targets, with [extracted_rows] as its result. A row
    is added when [found_station] is true for Python: neither [None] nor
    an empty dictionary. *)
Fixpoint scan_targets (defs : list (string * list string * bool))
    (prophix_date : string) (date_obj : datetime)
    (merged : pyval) (rows : list pyval) : result (list OutputRow) :=
  match defs with
  | [] => mret []
  | (target_name, keywords, is_merged) :: rest =>
      found ← find_station target_name keywords is_merged merged rows;
      match found with
      | Some station =>
          if truthy station then
            row ← new_row prophix_date date_obj target_name station;
            more ← scan_targets rest prophix_date date_obj merged rows;
            mret (row :: more)
          else scan_targets rest prophix_date date_obj merged rows
      | None => scan_targets rest prophix_date date_obj merged rows
      end
  end.

(** The body of [process_data] from the read of ['data'] on, for any list
    of targets. The result is the list [extracted_rows] the frame is made
    of: one row of the frame for each dictionary, in the same order; the
    types pandas gives to the columns are left to pandas. *)
Definition process_rows (defs : list (string * list string * bool))
    (rows_data : pyval) (date_obj : datetime) : result (list OutputRow) :=
  prophix_date ← get_prophix_date date_obj;
  rows ← py_iter rows_data;
  raymer_temp_node ← next_station "raymer 9,360" rows;
  raymer_wind_node ← next_station "raymer wind" rows;
  merged ← raymer_merged raymer_temp_node raymer_wind_node;
  _ ← py_len rows_data;
  scan_targets defs prophix_date date_obj merged rows.

Definition process_data (json_payload : pyval) (date_obj : datetime)
  : result (list OutputRow) :=
  if negb (truthy json_payload) then mret []
  else
    has_data ← py_in "data" json_payload;
    if negb has_data then mret []
    else
      rows_data ← py_getitem json_payload "data";
      process_rows target_defs rows_data date_obj.

End WithRepr.
End Mapper.

(** ** The writer *)
Module Writer.
Import Py Datetime Mapper.

Definition cols : list string :=
  ["ProphixDate"; "Date"; "Location"; "NewSno"; "SnoDepth"; "SnoFall Tot";
   "Max Temp"; "Min Temp"; "AvgWind"; "MaxGust"; "TotalWind"].

(** What pandas decides when it writes a frame: the text of the data
    lines, one for each row of the frame, and the line terminator. *)
Class CsvFormat := {
  csv_rows : list OutputRow -> list string;
  csv_rows_length : forall df, length (csv_rows df) = length df;
  lineterminator : string
}.

(** The table on disk: its text when the file is there, and whether
    another program holds it locked. *)
Record table_file : Type := mk_table {
  content : option string;
  locked : bool
}.

(** [os.path.isfile(CSV_FILE_PATH)] *)
Definition isfile (f : table_file) : bool :=
  match content f with Some _ => true | None => false end.

Section WithFormat.
Context `{CsvFormat}.

(** The column names are plain words and are written as they are. *)
Definition header_line : string := String.concat "," cols.

(** Every line is followed by the line terminator. *)
Definition lines_text (lines : list string) : string :=
  foldr (fun l rest => l +:+ lineterminator +:+ rest) "" lines.

(** [df.to_csv(CSV_FILE_PATH, mode='a', header=header, index=False)], for a
    path that is a file or is not there, in a directory that can be written:
    the write goes through, or the file is locked and [PermissionError] is
    raised. *)
Definition to_csv (df : list OutputRow) (header : bool) (f : table_file)
  : result table_file :=
  if locked f then Raise PermissionError
  else
    let old := default "" (content f) in
    let head := if header then lines_text [header_line] else "" in
    mret (mk_table (Some (old +:+ head +:+ lines_text (csv_rows df))) false).

(** The branch [if data:] of [main] once [process_data] has returned
    [df_new]: the new state of the table and the message that is logged.
    Every row carries every column, so the loop that adds missing columns
    and the selection [df_new[cols]] leave the frame as it is. *)
Definition write_table (df_new : list OutputRow) (date_obj : datetime)
    (f : table_file) : result (table_file * string) :=
  match df_new with
  | _ :: _ =>
      let file_exists := isfile f in
      match to_csv df_new (negb file_exists) f with
      | Ok f' =>
          mret (f', "SUCCESS: Appended " +:+ pretty (length df_new)
                    +:+ " rows for " +:+ strftime_ymd date_obj +:+ ".")
      | Raise PermissionError =>
          mret (f, "ERROR: Could not write to BTAC_History.csv. Is the Excel file open?")
      | Raise e => Raise e
      end
  | [] => mret (f, "No data rows matched the target stations.")
  end.

End WithFormat.
End Writer.

(** ** Notions of the specification *)
Module Spec.
Import Py Datetime Prophix Mapper.

(** The day after a calendar date. *)
Definition next_day (y m d : Z) : Z * Z * Z :=
  if d <? days_in_month y m then (y, m, d + 1)
  else if m <? 12 then (y, m + 1, 1)
  else (y + 1, 1, 1).

(** The year in which the fiscal period of a date began. *)
Definition fiscal_year (t : datetime) : Z :=
  if 5 <=? month t then year t else year t - 1.

(** Days from May 1 of the fiscal year, May 1 being day 1. *)
Definition day_number (t : datetime) : Z :=
  ymd2ord (year t) (month t) (day t) - ymd2ord (fiscal_year t) 5 1 + 1.

(** A station record: a JSON object. *)
Definition is_record (v : pyval) : Prop := exists d, v = PDict d.

(** A payload with a 'data' list of station records. *)
Definition station_payload (payload : pyval) (rows : list pyval) : Prop :=
  exists p, payload = PDict p /\ p !! "data" = Some (PList rows)
            /\ Forall is_record rows.

(** A value the payload leaves empty: no value, or the empty string.
    A key that is missing reads as [None]. *)
Definition empty_value (v : pyval) : Prop := v = PNone \/ v = PStr "".

Section WithRepr.
Context `{PyRepr}.

(** The lower-cased display name of a record. *)
Definition display_name (d : gmap string pyval) : string :=
  lower (py_str (default (PStr "") (d !! "display_name"))).

(** The lower-cased display name of [row] contains one of [keywords]. *)
Definition name_has (keywords : list string) (row : pyval) : Prop :=
  exists d k, row = PDict d /\ k ∈ keywords /\
              exists a b, display_name d = a +:+ k +:+ b.

(** [row] is the first record of [rows], in their order, that [P] holds of. *)
Definition first_with (P : pyval -> Prop) (rows : list pyval) (row : pyval)
  : Prop :=
  exists before after, rows = before ++ row :: after /\ P row /\
                       Forall (fun r => ~ P r) before.

(** The same test as a function, for records only. *)
Definition name_hasb (keywords : list string) (row : pyval) : bool :=
  match row with
  | PDict d => any_in keywords (display_name d)
  | _ => false
  end.

(** The station a target resolves to: the merged record for Raymer, the
    first matching record for the others. *)
Definition selected (target : string * list string * bool)
    (merged : pyval) (rows : list pyval) : option pyval :=
  let '(target_name, keywords, is_merged) := target in
  if is_merged && String.eqb target_name "Raymer" then Some merged
  else List.find (name_hasb keywords) rows.

(** The row written for a station. *)
Definition row_of (prophix_date : string) (date_obj : datetime)
    (target_name : string) (d : gmap string pyval) : OutputRow :=
  let field k := default (PStr "") (d !! k) in
  mk_row prophix_date (strftime_ymd date_obj) target_name
    (field "newsnow") (field "depth") (field "ttlsnowfall")
    (field "maxtemp") (field "mintemp")
    (field "avewindspd") (field "maxgust") (field "ttlwindmiles").

(** [d.get(k)]: a key that is missing reads as [None]. *)
Definition value (d : gmap string pyval) (k : string) : pyval :=
  default PNone (d !! k).

(** The fields of the station a scan found, none when it found nothing. *)
Definition fields (found : option pyval) : gmap string pyval :=
  match found with
  | Some (PDict d) => d
  | _ => ∅
  end.

(** The merged record of a temperature station and a wind station. *)
Definition merge_records (t w : gmap string pyval) : gmap string pyval :=
  list_to_map
    [("display_name", PStr "Raymer");
     ("maxtemp", value t "maxtemp");
     ("mintemp", value t "mintemp");
     ("avewindspd", value w "avewindspd");
     ("maxgust", value w "maxgust");
     ("ttlwindmiles", value w "ttlwindmiles");
     ("newsnow", py_or (value t "newsnow") (value w "newsnow"));
     ("depth", py_or (value t "depth") (value w "depth"));
     ("ttlsnowfall", py_or (value t "ttlsnowfall") (value w "ttlsnowfall"))].

Definition raymer_record (rows : list pyval) : gmap string pyval :=
  merge_records (fields (List.find (name_hasb ["raymer 9,360"]) rows))
                (fields (List.find (name_hasb ["raymer wind"]) rows)).

(** The row of one target, when the target resolves to a station. *)
Definition target_row (prophix_date : string) (date_obj : datetime)
    (merged : pyval) (rows : list pyval)
    (target : string * list string * bool) : option OutputRow :=
  match selected target merged rows with
  | Some (PDict d) =>
      if bool_decide (d = ∅) then None
      else Some (row_of prophix_date date_obj target.1.1 d)
  | _ => None
  end.

(** The rows of a list of targets, in the order of the targets. *)
Definition mapped_rows (defs : list (string * list string * bool))
    (date_obj : datetime) (rows : list pyval) : list OutputRow :=
  omap (target_row
          (pretty (fiscal_year date_obj) +:+ "D"
             +:+ zero_pad 3 (pretty (day_number date_obj)))
          date_obj (PDict (raymer_record rows)) rows) defs.

End WithRepr.
End Spec.

(** ** One run *)
Module Run.
Import Py Datetime Mapper Writer.

(** What a run can change: the table, and the log file. The log is kept
    as the list of the messages written to it; in the file each one is a
    line that starts with the time of the write. [log_fails] tells
    whether opening the log file raises. *)
Record world : Type := mk_world {
  table : table_file;
  log : list string;
  log_fails : bool
}.

(** [write_log]: an exception is caught and the message is lost. *)
Definition write_log (message : string) (w : world) : world :=
  if log_fails w then w
  else mk_world (table w) (log w ++ [message]) (log_fails w).

(** How the [try] block of [get_btac_data] ends: in an exception, with
    its text, or with the decoded body of the response. *)
Inductive fetched : Type :=
  | Failed (e : string)
  | Body (json : pyval).

(** [get_btac_data], for the day before the run as [yesterday]: the pair
    it returns, with [None] for the pair [(None, None)]. *)
Definition get_btac_data (yesterday : datetime) (answer : fetched) (w : world)
  : option (pyval * datetime) * world :=
  match answer with
  | Body json => (Some (json, yesterday), w)
  | Failed e => (None, write_log ("Error fetching data: " +:+ e) w)
  end.

Section WithEnvironment.
Context `{PyRepr} `{CsvFormat}.

(** [main]. The path of the table has no directory, so that no directory
    is made. An exception of [process_data] is not caught. *)
Definition main (yesterday : datetime) (answer : fetched) (w : world)
  : result world :=
  let w1 := write_log "Starting Daily Scrape..." w in
  let '(got, w2) := get_btac_data yesterday answer w1 in
  match got with
  | Some (data, date_obj) =>
      if truthy data then
        df_new ← process_data data date_obj;
        written ← write_table df_new date_obj (table w2);
        mret (write_log written.2 (mk_world written.1 (log w2) (log_fails w2)))
      else mret (write_log "API request failed (Check internet or URL)." w2)
  | None => mret (write_log "API request failed (Check internet or URL)." w2)
  end.

(** One run after another, each with its day and the answer it gets. *)
Fixpoint runs (days : list (datetime * fetched)) (w : world) : result world :=
  match days with
  | [] => mret w
  | (yesterday, answer) :: rest =>
      w' ← main yesterday answer w;
      runs rest w'
  end.

End WithEnvironment.
End Run.

(** ** Notions for the further properties *)
Module Notions.
Import Py Datetime Mapper Writer.

(** The keyword lists [process_data] scans the stations for, in the order
    of the scans: the two Raymer stations, then the targets that are not
    merged. *)
Definition scan_keywords : list (list string) :=
  [["raymer 9,360"]; ["raymer wind"]]
  ++ ((fun t : string * list string * bool => t.1.2)
        <$> filter (fun t : string * list string * bool => t.2 = false) target_defs).

(** A value that cannot be iterated over. *)
Definition scalar (v : pyval) : Prop :=
  match v with
  | PNone | PBool _ | PInt _ | PFloat _ => True
  | PStr _ | PList _ | PDict _ => False
  end.

(** The text YYYY-MM-DD of a date. *)
Definition iso_date (t : datetime) : string :=
  zero_pad 4 (pretty (year t)) +:+ "-" +:+ zero_pad 2 (pretty (month t))
  +:+ "-" +:+ zero_pad 2 (pretty (day t)).

(** The Raymer row of a day on which no Raymer station reports. *)
Definition blank_raymer_row (prophix_date : string) (date_obj : datetime)
  : OutputRow :=
  mk_row prophix_date (strftime_ymd date_obj) "Raymer"
         PNone PNone PNone PNone PNone PNone PNone PNone.

Section WithFormat.
Context `{CsvFormat}.

(** A table that is not there, or begins with the header line. *)
Definition headed (f : table_file) : Prop :=
  match content f with
  | None => True
  | Some text => exists lines, text = lines_text (header_line :: lines)
  end.

End WithFormat.
End Notions.

(** ** Sample inputs *)
Module Examples.
Import Py Datetime Mapper Writer.

(** The display names of the samples are strings, which [str] returns as
    they are: [repr] is not called on them, and this instance only fills
    the place. *)
Definition repr_unused : PyRepr := fun _ => "".

Definition station (name : string) (kv : list (string * pyval)) : pyval :=
  PDict (list_to_map (("display_name", PStr name) :: kv)).

Definition payload_of (rows : list pyval) : pyval :=
  PDict {[ "data" := PList rows ]}.

(** A run at 5:30 on May 2, 2026 works on the day before. *)
Definition may_day : datetime := mk_datetime 2026 5 1 5 30 0 0.

(** The date of the docstring of [get_prophix_date]. *)
Definition december_6 : datetime := mk_datetime 2025 12 6 5 30 0 0.

(** The Raymer temperature station reports no new snow as the number 0;
    the wind station reports 2. *)
Definition zero_snow : list pyval :=
  [station "Raymer 9,360" [("maxtemp", PInt 31); ("newsnow", PInt 0)];
   station "Raymer Wind" [("avewindspd", PInt 12); ("newsnow", PInt 2)]].

(** The only station is the Raymer temperature station, and it has a
    maximum temperature and nothing else. *)
Definition raymer_temp_only : list pyval :=
  [station "Raymer 9,360" [("maxtemp", PStr "20")]].

(** Stations for every target but Buff, in an order of their own, some
    without a name or with [null] for a value. *)
Definition no_buff : list pyval :=
  [station "Base 6,510" [("maxtemp", PInt 40)];
   PDict ∅;
   station "Raymer Wind 9,360" [("maxgust", PInt 35)];
   station "RENDEZVOUS BOWL Upper" [("depth", PStr "88")];
   PDict {[ "display_name" := PNone; "depth" := PNone ]};
   station "Mid Mtn 8,180" [("newsnow", PNone)];
   station "Summit 10,450" []].

(** The same stations in another order. *)
Definition no_buff_shuffled : list pyval :=
  [station "Summit 10,450" [];
   station "Base 6,510" [("maxtemp", PInt 40)];
   PDict ∅;
   station "Raymer Wind 9,360" [("maxgust", PInt 35)];
   station "RENDEZVOUS BOWL Upper" [("depth", PStr "88")];
   PDict {[ "display_name" := PNone; "depth" := PNone ]};
   station "Mid Mtn 8,180" [("newsnow", PNone)]].

(** A plain rendering of the cells, to run the writer on. *)
Definition cell (v : pyval) : string :=
  match v with
  | PStr s => s
  | PInt n => pretty n
  | PBool true => "True"
  | PBool false => "False"
  | _ => ""
  end.

Definition plain_line (r : OutputRow) : string :=
  String.concat "," ([ProphixDate r; Date r; Location r] ++ (cell <$> metrics r)).

Definition plain_csv : CsvFormat :=
  {| csv_rows df := plain_line <$> df;
     csv_rows_length df := length_fmap plain_line df;
     lineterminator := String (Ascii.ascii_of_nat 10) "" |}.

End Examples.

(** ** More sample inputs *)
Module MoreExamples.
Import Py Datetime Mapper Writer Run Examples.

(** The same day, a minute before midnight. *)
Definition may_day_late : datetime := mk_datetime 2026 5 1 23 59 0 0.

(** A station for each of the seven scans. *)
Definition all_stations : list pyval :=
  [station "Summit 10,450" [("maxtemp", PInt 12)];
   station "Rendezvous Bowl 9,580" [("depth", PInt 90)];
   station "Raymer 9,360" [("maxtemp", PInt 18)];
   station "Raymer Wind" [("maxgust", PInt 41)];
   station "Mid Mountain 8,180" [("depth", PInt 70)];
   station "Buffalo Bowl 8,800" [];
   station "Base 6,510" [("maxtemp", PInt 33)]].

(** A list that holds other things than records after the stations. *)
Definition stations_then_junk : gmap string pyval :=
  {[ "data" := PList (all_stations ++ [PNone; PInt 3]) ]}.

(** A list that begins with [null]. *)
Definition null_first : gmap string pyval :=
  {[ "data" := PList ([] ++ PNone :: all_stations) ]}.

(** 'data' is [null]. *)
Definition null_data : gmap string pyval := {[ "data" := PNone ]}.

(** Stations, and no Raymer station among them. *)
Definition no_raymer : list pyval :=
  [station "Summit 10,450" [("maxtemp", PInt 12)];
   station "Base 6,510" [("maxtemp", PInt 33)]].

(** A table with the header line and one row, free, and an empty log. *)
Definition one_row_world : world :=
  mk_world
    (mk_table
       (Some (@lines_text plain_csv
                [@header_line; "2026D001,2026-05-01,Raymer,,,,,,,,"])) false)
    [] false.

(** No table yet, and an empty log. *)
Definition new_world : world := mk_world (mk_table None false) [] false.

(** The same with the table locked. *)
Definition locked_world : world :=
  mk_world
    (mk_table
       (Some (@lines_text plain_csv
                [@header_line; "2026D001,2026-05-01,Raymer,,,,,,,,"])) true)
    [] false.

End MoreExamples.

(** * Properties *)

Import Py Datetime Prophix Mapper Writer Run Spec Notions Examples MoreExamples.

(** ** Results *)
Section ResultFacts.
Context {A B : Type}.

Lemma bind_ok (a : A) (k : A -> result B) : mbind k (Ok a) = k a.
Proof. reflexivity. Qed.

Lemma bind_raise (e : exn) (k : A -> result B) : mbind k (Raise e) = Raise e.
Proof. reflexivity. Qed.

Lemma ret_ok (a : A) : mret a = Ok a.
Proof. reflexivity. Qed.

Lemma bind_returns (c : result A) (k : A -> result B) :
  returns (mbind k c) <-> exists a, c = Ok a /\ returns (k a).
Proof.
  destruct c as [a|e]; simpl.
  - split; [intros Hk; by exists a | by intros (a' & [= <-] & Hk)].
  - split; [intros [b Hb]; discriminate Hb | by intros (a & Ha & _)].
Qed.

End ResultFacts.

(** ** Strings *)
Section StringFacts.

Lemma prefix_spec (k s : string) :
  String.prefix k s = true <-> exists b, s = k +:+ b.
Proof.
  revert s. induction k as [|c k IH]; intros [|c' s]; simpl.
  - split; [intros _; by exists "" | done].
  - split; [intros _; by exists (String c' s) | done].
  - split; [done | intros [b Hb]; discriminate Hb].
  - destruct (Ascii.ascii_dec c c') as [->|Hne].
    + rewrite IH. split; intros [b Hb]; exists b.
      * by rewrite Hb.
      * by injection Hb.
    + split; [done | intros [b Hb]; injection Hb as Hc _; congruence].
Qed.

(** [contains] is the substring test. *)
Lemma contains_spec (k s : string) :
  contains k s = true <-> exists a b, s = a +:+ k +:+ b.
Proof.
  induction s as [|c s IH]; cbn [contains].
  - rewrite orb_false_r, prefix_spec. split.
    + intros [b Hb]. by exists "", b.
    + intros (a & b & Hab). destruct a; [by exists b | discriminate Hab].
  - rewrite orb_true_iff, prefix_spec, IH. split.
    + intros [[b Hb] | (a & b & Hab)].
      * by exists "", b.
      * exists (String c a), b. simpl. by rewrite Hab.
    + intros (a & b & Hab). destruct a as [|c' a]; simpl in Hab.
      * left. by exists b.
      * right. exists a, b. by injection Hab.
Qed.

Lemma any_in_spec (keywords : list string) (name : string) :
  any_in keywords name = true <->
  exists k, k ∈ keywords /\ exists a b, name = a +:+ k +:+ b.
Proof.
  unfold any_in. rewrite existsb_exists. split.
  - intros (k & Hin & Hk). exists k. split; [by apply list_elem_of_In |].
    by apply contains_spec.
  - intros (k & Hin & Hk). exists k. split; [by apply list_elem_of_In |].
    by apply contains_spec.
Qed.

(** Lower-casing is idempotent, and forgets the case of the letters. *)
Lemma lower_ascii_idemp (c : Ascii.ascii) :
  lower_ascii (lower_ascii c) = lower_ascii c.
Proof. by destruct c as [[] [] [] [] [] [] [] []]. Qed.

Lemma lower_idemp (s : string) : lower (lower s) = lower s.
Proof.
  induction s as [|c s IH]; simpl; [done |].
  by rewrite lower_ascii_idemp, IH.
Qed.

End StringFacts.

(** ** Dates *)
Section DateFacts.

Lemma month_cases (m : Z) :
  1 <= m <= 12 ->
  m = 1 \/ m = 2 \/ m = 3 \/ m = 4 \/ m = 5 \/ m = 6 \/
  m = 7 \/ m = 8 \/ m = 9 \/ m = 10 \/ m = 11 \/ m = 12.
Proof. lia. Qed.

Lemma check_date_fields_spec (y m d : Z) :
  check_date_fields y m d = true <->
  1 <= y <= 9999 /\ 1 <= m <= 12 /\ 1 <= d <= days_in_month y m.
Proof.
  unfold check_date_fields, MINYEAR, MAXYEAR.
  rewrite !andb_true_iff, !Z.leb_le. lia.
Qed.

Lemma check_time_fields_spec (h mi s us : Z) :
  check_time_fields h mi s us = true <->
  0 <= h <= 23 /\ 0 <= mi <= 59 /\ 0 <= s <= 59 /\ 0 <= us <= 999999.
Proof.
  unfold check_time_fields. rewrite !andb_true_iff, !Z.leb_le. lia.
Qed.

(** Leap years, from one year to the next. *)
Lemma days_before_year_succ (y : Z) :
  days_before_year (y + 1) =
  days_before_year y + (if is_leap y then 366 else 365).
Proof.
  unfold days_before_year, is_leap.
  replace (y + 1 - 1) with y by lia.
  destruct (y mod 4 =? 0) eqn:H4, (y mod 100 =? 0) eqn:H100,
           (y mod 400 =? 0) eqn:H400; simpl;
    rewrite ?Z.eqb_eq, ?Z.eqb_neq in *;
    Z.to_euclidean_division_equations; lia.
Qed.

(** The ordinal counts calendar days: the day after has the next one. *)
Lemma ymd2ord_next_day (y m d : Z) :
  1 <= m <= 12 -> 1 <= d <= days_in_month y m ->
  let '(y', m', d') := next_day y m d in
  ymd2ord y' m' d' = ymd2ord y m d + 1.
Proof.
  intros Hm Hd. unfold next_day.
  destruct (d <? days_in_month y m) eqn:Hlt.
  - unfold ymd2ord. lia.
  - apply Z.ltb_ge in Hlt. assert (d = days_in_month y m) as -> by lia.
    clear Hlt Hd. destruct (m <? 12) eqn:H12.
    + apply Z.ltb_lt in H12. unfold ymd2ord, days_in_month, days_before_month.
      destruct (is_leap y);
        destruct (month_cases m Hm) as [->|[->|[->|[->|[->|[->|[->|[->|[->|[->|[->| ->]]]]]]]]]]];
        generalize (days_before_year y); intros D; simpl; lia.
    + apply Z.ltb_ge in H12. assert (m = 12) as -> by lia.
      unfold ymd2ord. rewrite days_before_year_succ.
      unfold days_in_month, days_before_month.
      generalize (days_before_year y); intros D.
      destruct (is_leap y), (is_leap (y + 1)); simpl; lia.
Qed.

(** Subtracting a midnight: the time of day of the left operand does not
    reach the day count. *)
Lemma timedelta_new_days (d s us : Z) :
  0 <= s < 86400 -> 0 <= us < 1000000 ->
  days (timedelta_new d s us) = d.
Proof.
  intros Hs Hus. unfold timedelta_new. simpl.
  replace (((d * 86400 + s) * 1000000 + us) / 1000000) with (d * 86400 + s).
  - symmetry. apply (Z.div_unique _ _ _ s); lia.
  - apply (Z.div_unique _ _ _ us); lia.
Qed.

Lemma datetime_sub_midnight (t : datetime) (y m d : Z) :
  valid t ->
  days (datetime_sub t (mk_datetime y m d 0 0 0 0)) = toordinal t - ymd2ord y m d.
Proof.
  intros [_ Ht]. apply check_time_fields_spec in Ht.
  unfold datetime_sub. simpl. apply timedelta_new_days; lia.
Qed.

(** The day number of a date stays within a fiscal year. *)
Lemma day_number_range (t : datetime) :
  valid t -> 1 <= day_number t <= 366.
Proof.
  intros [Hd _]. apply check_date_fields_spec in Hd.
  destruct Hd as (Hy & Hm & Hd).
  unfold day_number, fiscal_year, ymd2ord.
  destruct (5 <=? month t) eqn:H5.
  - apply Z.leb_le in H5. revert Hd H5.
    unfold days_in_month, days_before_month.
    generalize (days_before_year (year t)); intros D.
    destruct (is_leap (year t));
      destruct (month_cases _ Hm) as [->|[->|[->|[->|[->|[->|[->|[->|[->|[->|[->| ->]]]]]]]]]]];
      simpl; lia.
  - apply Z.leb_gt in H5. revert Hd H5.
    pose proof (days_before_year_succ (year t - 1)) as Hs.
    replace (year t - 1 + 1) with (year t) in Hs by lia. rewrite Hs. clear Hs.
    generalize (days_before_year (year t - 1)); intros D.
    assert (is_leap (year t - 1) = true -> is_leap (year t) = false) as Hleap.
    { unfold is_leap. rewrite !andb_true_iff, andb_false_iff, Z.eqb_eq, Z.eqb_neq.
      intros [H4 _]. left. Z.to_euclidean_division_equations; lia. }
    unfold days_in_month, days_before_month.
    destruct (is_leap (year t - 1)); [rewrite Hleap by done|];
      destruct (is_leap (year t));
      destruct (month_cases _ Hm) as [->|[->|[->|[->|[->|[->|[->|[->|[->|[->|[->| ->]]]]]]]]]]];
      simpl; lia.
Qed.

(** May 1 is day 1, and every later day of the fiscal year is one more
    than the day before it. *)
Lemma day_number_may_first (y h mi sec us : Z) :
  day_number (mk_datetime y 5 1 h mi sec us) = 1.
Proof. unfold day_number, fiscal_year. cbn. lia. Qed.

Lemma day_number_next_day (t : datetime) (h mi sec us : Z) :
  valid t ->
  let '(y', m', d') := next_day (year t) (month t) (day t) in
  (m', d') ≠ (5, 1) ->
  day_number (mk_datetime y' m' d' h mi sec us) = day_number t + 1.
Proof.
  intros [Hd _]. apply check_date_fields_spec in Hd.
  destruct Hd as (Hy & Hm & Hd).
  pose proof (ymd2ord_next_day (year t) (month t) (day t) Hm Hd) as Hord.
  revert Hord. unfold next_day.
  destruct (day t <? days_in_month (year t) (month t)) eqn:Hlt.
  - intros Hord _. unfold day_number, fiscal_year. cbn [year month day].
    rewrite Hord. lia.
  - apply Z.ltb_ge in Hlt. destruct (month t <? 12) eqn:H12.
    + apply Z.ltb_lt in H12. intros Hord Hmay.
      unfold day_number, fiscal_year. cbn [year month day]. rewrite Hord.
      destruct (5 <=? month t) eqn:H5, (5 <=? month t + 1) eqn:H5';
        rewrite ?Z.leb_le, ?Z.leb_gt in *; try lia.
      destruct Hmay. f_equal. lia.
    + apply Z.ltb_ge in H12. intros Hord _.
      unfold day_number, fiscal_year. cbn [year month day]. rewrite Hord.
      assert ((5 <=? month t) = true) as -> by (apply Z.leb_le; lia).
      cbn. replace (year t + 1 - 1) with (year t) by lia. lia.
Qed.

(** Day numbers are written with three digits. *)
Lemma format_03d_digits (n : Z) :
  1 <= n <= 366 ->
  format_03d n = zero_pad 3 (pretty n) /\ String.length (format_03d n) = 3%nat.
Proof.
  intros Hn.
  assert (forallb (fun k => bool_decide
            (format_03d k = zero_pad 3 (pretty k) /\
             String.length (format_03d k) = 3%nat)) (seqZ 1 366) = true)
    as Hall by (vm_compute; reflexivity).
  rewrite forallb_forall in Hall.
  assert (In n (seqZ 1 366)) as Hin
    by (apply list_elem_of_In, elem_of_seqZ; lia).
  apply Hall in Hin. by apply bool_decide_eq_true in Hin.
Qed.

End DateFacts.

(** ** The fiscal date code *)
Section ProphixFacts.

Lemma datetime_new_ok (y m d : Z) :
  check_date_fields y m d = true ->
  datetime_new y m d = Ok (mk_datetime y m d 0 0 0 0).
Proof. intros Hc. unfold datetime_new. by rewrite Hc. Qed.

(** May 1 of the fiscal year is a date as soon as that year is not year 0. *)
Lemma fiscal_start_ok (t : datetime) :
  valid t -> 2 <= year t \/ 5 <= month t ->
  check_date_fields (fiscal_year t) 5 1 = true.
Proof.
  intros [Hd _] Hr. apply check_date_fields_spec in Hd.
  apply check_date_fields_spec. unfold fiscal_year.
  assert (days_in_month (if 5 <=? month t then year t else year t - 1) 5 = 31)
    as -> by done.
  destruct (5 <=? month t) eqn:H5; [lia |]. apply Z.leb_gt in H5. lia.
Qed.

(** What [get_prophix_date] returns, for the dates it returns on. *)
Lemma get_prophix_date_returns (t : datetime) :
  valid t -> 2 <= year t \/ 5 <= month t ->
  get_prophix_date t =
  Ok (pretty (fiscal_year t) +:+ "D" +:+ zero_pad 3 (pretty (day_number t))).
Proof.
  intros Hv Hr. unfold get_prophix_date. fold (fiscal_year t).
  rewrite (datetime_new_ok _ _ _ (fiscal_start_ok t Hv Hr)), bind_ok.
  rewrite datetime_sub_midnight by done.
  unfold toordinal. fold (day_number t).
  pose proof (day_number_range t Hv) as Hn.
  by destruct (format_03d_digits _ Hn) as [-> _].
Qed.

(** C1, as amended. For every date from 0001-05-01 on, at any time of the
    day, [get_prophix_date] returns the fiscal year, the letter D and the
    day number in three digits: the fiscal year is the year of the date
    from May on and the year before otherwise, and the day number is the
    count of calendar days from May 1 of the fiscal year, plus one. So
    2026-05-01 gives 2026D001 and 2026-04-30 gives 2025D365. *)
Theorem prophix_date_code (t : datetime) :
  valid t -> 2 <= year t \/ 5 <= month t ->
  (5 <= month t -> fiscal_year t = year t) /\
  (month t < 5 -> fiscal_year t = year t - 1) /\
  day_number t = toordinal t - ymd2ord (fiscal_year t) 5 1 + 1 /\
  1 <= day_number t <= 366 /\
  String.length (zero_pad 3 (pretty (day_number t))) = 3%nat /\
  get_prophix_date t =
    Ok (pretty (fiscal_year t) +:+ "D" +:+ zero_pad 3 (pretty (day_number t))) /\
  get_prophix_date (mk_datetime 2026 5 1 0 0 0 0) = Ok "2026D001" /\
  get_prophix_date (mk_datetime 2026 4 30 0 0 0 0) = Ok "2025D365".
Proof.
  intros Hv Hr. pose proof (day_number_range t Hv) as Hn.
  destruct (format_03d_digits _ Hn) as [Hf Hl]. rewrite Hf in Hl.
  repeat split; try done; try lia.
  - intros H5. unfold fiscal_year. by apply Z.leb_le in H5 as ->.
  - intros H5. unfold fiscal_year. by apply Z.leb_gt in H5 as ->.
  - by apply get_prophix_date_returns.
Qed.

Lemma prophix_date_code_witness :
  valid december_6 /\ (2 <= year december_6 \/ 5 <= month december_6) /\
  get_prophix_date december_6 = Ok "2025D220".
Proof.
  assert (valid december_6) as Hv by (by split).
  assert (2 <= year december_6 \/ 5 <= month december_6) as Hr
    by (left; cbn; lia).
  split; [exact Hv |]. split; [exact Hr |].
  destruct (prophix_date_code december_6 Hv Hr) as (_ & _ & _ & _ & _ & Hcode & _).
  exact Hcode.
Defined.

(** C1, as stated, fails in the first four months of year 1: the fiscal
    year would be year 0, which [datetime] refuses. *)
Lemma prophix_date_code_year_one :
  valid (mk_datetime 1 4 30 0 0 0 0) /\
  get_prophix_date (mk_datetime 1 4 30 0 0 0 0) = Raise ValueError.
Proof. by repeat split. Qed.

End ProphixFacts.

(** ** The mapper against its specification *)
Section MapperFacts.
Context `{PyRepr}.

Lemma d_name_record (d : gmap string pyval) :
  d_name (PDict d) = Ok (display_name d).
Proof. reflexivity. Qed.

Lemma name_hasb_spec (keywords : list string) (row : pyval) :
  name_hasb keywords row = true <-> name_has keywords row.
Proof.
  unfold name_has. destruct row as [| | | | | |d]; simpl;
    try (split; [done | by intros (d & k & [=] & _)]).
  rewrite any_in_spec. split.
  - intros (k & Hk & Hab). by exists d, k.
  - intros (d' & k & [= <-] & Hk & Hab). by exists k.
Qed.

(** [List.find] returns the first element that passes the test. *)
Lemma find_first_with (f : pyval -> bool) (rows : list pyval) (row : pyval) :
  List.find f rows = Some row <->
  first_with (fun r => f r = true) rows row.
Proof.
  unfold first_with. induction rows as [|r rows IH]; simpl.
  - split; [done | intros ([|? ?] & after & Heq & _); discriminate Heq].
  - destruct (f r) eqn:Hr.
    + split.
      * intros [= <-]. exists [], rows. by repeat split.
      * intros ([|r' before] & after & Heq & Hrow & Hbefore).
        -- by injection Heq as <- _.
        -- injection Heq as <- _. apply Forall_cons in Hbefore as [Hno _].
           congruence.
    + rewrite IH. split.
      * intros (before & after & -> & Hrow & Hbefore).
        exists (r :: before), after. repeat split; [done |].
        apply Forall_cons. split; [congruence | done].
      * intros ([|r' before] & after & Heq & Hrow & Hbefore).
        -- injection Heq as <- _. congruence.
        -- injection Heq as <- ->. apply Forall_cons in Hbefore as [_ Hrest].
           by exists before, after.
Qed.

Lemma find_none_Forall (f : pyval -> bool) (rows : list pyval) :
  List.find f rows = None <-> Forall (fun r => f r = false) rows.
Proof.
  induction rows as [|r rows IH]; simpl; [by split |].
  destruct (f r) eqn:Hr.
  - split; [done | intros Hall; apply Forall_cons in Hall as [Hno _]; congruence].
  - rewrite IH. split; [intros Hall; by apply Forall_cons | ].
    intros Hall. by apply Forall_cons in Hall as [_ Hrest].
Qed.

(** On station records the scan of the script is [List.find]. *)
Lemma first_match_records (keywords : list string) (rows : list pyval) :
  Forall is_record rows ->
  first_match keywords rows = Ok (List.find (name_hasb keywords) rows).
Proof.
  induction 1 as [|r rows [d ->] _ IH]; cbn [first_match List.find]; [done |].
  rewrite d_name_record, bind_ok. cbn [name_hasb].
  destruct (any_in keywords (display_name d)); [done | exact IH].
Qed.

Lemma find_record (f : pyval -> bool) (rows : list pyval) (row : pyval) :
  Forall is_record rows -> List.find f rows = Some row -> is_record row.
Proof.
  intros Hall Hfind. apply find_some in Hfind as [Hin _].
  rewrite Forall_forall in Hall. by apply Hall, list_elem_of_In.
Qed.

Lemma next_station_records (k : string) (rows : list pyval) :
  Forall is_record rows ->
  next_station k rows = Ok (PDict (fields (List.find (name_hasb [k]) rows))).
Proof.
  intros Hall. unfold next_station.
  rewrite first_match_records, bind_ok by done.
  destruct (List.find (name_hasb [k]) rows) as [row|] eqn:Hfind; [|done].
  by destruct (find_record _ _ _ Hall Hfind) as [d ->].
Qed.

Lemma get_or_records (t w : gmap string pyval) (key : string) :
  get_or (PDict t) (PDict w) key = Ok (py_or (value t key) (value w key)).
Proof.
  unfold get_or, py_or. simpl. fold (value t key). by destruct (truthy _).
Qed.

Lemma raymer_merged_records (t w : gmap string pyval) :
  raymer_merged (PDict t) (PDict w) = Ok (PDict (merge_records t w)).
Proof. unfold raymer_merged. by rewrite !get_or_records. Qed.

Lemma new_row_record (prophix_date : string) (date_obj : datetime)
    (target_name : string) (d : gmap string pyval) :
  new_row prophix_date date_obj target_name (PDict d) =
  Ok (row_of prophix_date date_obj target_name d).
Proof. reflexivity. Qed.

Lemma find_station_records (target_name : string) (keywords : list string)
    (is_merged : bool) (merged : pyval) (rows : list pyval) :
  Forall is_record rows ->
  find_station target_name keywords is_merged merged rows =
  Ok (selected (target_name, keywords, is_merged) merged rows).
Proof.
  intros Hall. unfold find_station, selected.
  destruct (is_merged && String.eqb target_name "Raymer"); [done |].
  by apply first_match_records.
Qed.

Lemma selected_record (target : string * list string * bool)
    (m : gmap string pyval) (rows : list pyval) (station : pyval) :
  Forall is_record rows ->
  selected target (PDict m) rows = Some station -> is_record station.
Proof.
  destruct target as [[target_name keywords] is_merged]. intros Hall. simpl.
  destruct (is_merged && String.eqb target_name "Raymer").
  - intros [= <-]. by exists m.
  - by apply find_record.
Qed.

(** The loop over the targets, on station records. *)
Lemma scan_targets_records (defs : list (string * list string * bool))
    (prophix_date : string) (date_obj : datetime)
    (m : gmap string pyval) (rows : list pyval) :
  Forall is_record rows ->
  scan_targets defs prophix_date date_obj (PDict m) rows =
  Ok (omap (target_row prophix_date date_obj (PDict m) rows) defs).
Proof.
  intros Hall. induction defs as [|[[target_name keywords] is_merged] defs IH];
    [done |].
  cbn [scan_targets omap list_omap]. rewrite find_station_records, bind_ok by done.
  unfold target_row at 1.
  destruct (selected _ _ _) as [station|] eqn:Hsel; [|exact IH].
  destruct (selected_record _ _ _ _ Hall Hsel) as [d ->].
  cbn [truthy]. destruct (bool_decide (d = ∅)); cbn [negb]; [exact IH |].
  by rewrite new_row_record, bind_ok, IH.
Qed.

Lemma merge_records_nonempty (t w : gmap string pyval) :
  merge_records t w ≠ ∅.
Proof.
  intros Hempty.
  assert (merge_records t w !! "display_name" = Some (PStr "Raymer")) as Hl
    by reflexivity.
  by rewrite Hempty in Hl.
Qed.

(** A record whose name holds a keyword is not the empty dictionary, as
    long as no keyword is the empty string. *)
Lemma name_hasb_nonempty (keywords : list string) (d : gmap string pyval) :
  any_in keywords "" = false -> name_hasb keywords (PDict d) = true -> d ≠ ∅.
Proof.
  intros Hkw Hd ->. unfold name_hasb, display_name in Hd.
  rewrite lookup_empty in Hd. change (any_in keywords "" = true) in Hd.
  congruence.
Qed.

Lemma target_defs_keywords :
  Forall (fun t : string * list string * bool => any_in t.1.2 "" = false)
         target_defs.
Proof. repeat constructor. Qed.

(** [process_rows] on a list of station records. *)
Lemma process_rows_records (defs : list (string * list string * bool))
    (rows : list pyval) (date_obj : datetime) (prophix_date : string) :
  Forall is_record rows ->
  get_prophix_date date_obj = Ok prophix_date ->
  process_rows defs (PList rows) date_obj =
  Ok (omap (target_row prophix_date date_obj (PDict (raymer_record rows)) rows)
           defs).
Proof.
  intros Hall Hdate. unfold process_rows. rewrite Hdate, bind_ok.
  cbn [py_iter]. rewrite bind_ok.
  rewrite !next_station_records, !bind_ok by done.
  rewrite raymer_merged_records, bind_ok. cbn [py_len]. rewrite bind_ok.
  by apply scan_targets_records.
Qed.

Lemma process_data_payload (payload : pyval) (rows : list pyval)
    (date_obj : datetime) :
  station_payload payload rows ->
  process_data payload date_obj = process_rows target_defs (PList rows) date_obj.
Proof.
  intros (p & -> & Hdata & _). unfold process_data. cbn [truthy py_in py_getitem].
  assert (p ≠ ∅) as Hne by (intros ->; by rewrite lookup_empty in Hdata).
  rewrite (bool_decide_eq_false_2 _ Hne). cbn [negb].
  rewrite bool_decide_eq_true_2 by (by rewrite Hdata).
  rewrite bind_ok. cbn [negb]. by rewrite Hdata, bind_ok.
Qed.

(** [process_data] on a payload of station records. *)
Lemma process_data_records (payload : pyval) (rows : list pyval)
    (date_obj : datetime) :
  station_payload payload rows ->
  valid date_obj -> 2 <= year date_obj \/ 5 <= month date_obj ->
  process_data payload date_obj = Ok (mapped_rows target_defs date_obj rows).
Proof.
  intros Hp Hv Hr. rewrite (process_data_payload _ _ _ Hp).
  destruct Hp as (p & _ & _ & Hall).
  by apply process_rows_records, get_prophix_date_returns.
Qed.

End MapperFacts.

(** ** The claims about the mapper *)
Section MapperClaims.
Context `{PyRepr}.

Lemma target_row_location (prophix_date : string) (date_obj : datetime)
    (merged : pyval) (rows : list pyval)
    (target : string * list string * bool) (row : OutputRow) :
  target_row prophix_date date_obj merged rows target = Some row ->
  Location row = target.1.1.
Proof.
  unfold target_row. destruct (selected _ _ _) as [[| | | | | |d]|]; try done.
  destruct (bool_decide (d = ∅)); [done |]. by intros [= <-].
Qed.

Lemma new_row_location (prophix_date : string) (date_obj : datetime)
    (target_name : string) (station : pyval) (row : OutputRow) :
  new_row prophix_date date_obj target_name station = Ok row ->
  Location row = target_name.
Proof. destruct station; try done. rewrite new_row_record. by intros [= <-]. Qed.

Lemma target_row_merged (prophix_date : string) (date_obj : datetime)
    (keywords : list string) (t w : gmap string pyval) (rows : list pyval) :
  target_row prophix_date date_obj (PDict (merge_records t w)) rows
             ("Raymer", keywords, true) =
  Some (row_of prophix_date date_obj "Raymer" (merge_records t w)).
Proof.
  unfold target_row.
  change (selected _ _ _) with (Some (PDict (merge_records t w))).
  cbv beta iota.
  by rewrite bool_decide_eq_false_2 by apply merge_records_nonempty.
Qed.

(** No target of [defs] is called [name]: no row is. *)
Lemma no_target_no_row (name : string) (f : string * list string * bool -> option OutputRow)
    (defs : list (string * list string * bool)) :
  (forall t row, f t = Some row -> Location row = t.1.1) ->
  Forall (fun t => t.1.1 ≠ name) defs ->
  filter (fun r => Location r = name) (omap f defs) = [].
Proof.
  intros Hloc. induction 1 as [|t defs Ht _ IH]; [done |].
  cbn [omap list_omap]. destruct (f t) as [row|] eqn:Hrow; [|exact IH].
  rewrite filter_cons_False; [exact IH |]. by rewrite (Hloc _ _ Hrow).
Qed.

(** A field a station does not have is the empty string in its row. *)
Lemma absent_field_empty_string (prophix_date : string) (date_obj : datetime)
    (target_name : string) (d : gmap string pyval) (i : nat) (k : string) :
  metric_keys !! i = Some k -> d !! k = None ->
  metrics (row_of prophix_date date_obj target_name d) !! i = Some (PStr "").
Proof.
  intros Hk Hd. unfold metrics, row_of. cbn [NewSno SnoDepth SnoFall_Tot
    Max_Temp Min_Temp AvgWind MaxGust TotalWind].
  do 8 (destruct i as [|i]; [injection Hk as <-; cbn; by rewrite Hd |]).
  destruct i; discriminate Hk.
Qed.

(** The merged record has every field, so that none of its fields takes
    the default of the row. *)
Lemma merged_has_every_field (t w : gmap string pyval) (k : string) :
  k ∈ metric_keys -> is_Some (merge_records t w !! k).
Proof.
  intros Hk. apply list_elem_of_In in Hk. cbn in Hk.
  by destruct Hk as [<-|[<-|[<-|[<-|[<-|[<-|[<-|[<-|[]]]]]]]]].
Qed.


(** C10. On a payload whose 'data' is a list of records, whatever keys the
    records have and whatever values they hold, [process_data] returns.
    The date is one [get_prophix_date] returns on. *)
Theorem process_data_total (payload : pyval) (rows : list pyval)
    (date_obj : datetime) :
  station_payload payload rows ->
  valid date_obj -> 2 <= year date_obj \/ 5 <= month date_obj ->
  returns (process_data payload date_obj).
Proof.
  intros Hp Hv Hr. eexists. by apply process_data_records.
Qed.

(** C7. On a payload with a list of station records the Raymer target
    always takes the merged record, and the rows hold one Raymer row, the
    row of the merged record, whether or not a station is called
    "raymer 9,360" or "raymer wind". *)
Theorem raymer_row_always (payload : pyval) (rows : list pyval)
    (date_obj : datetime) :
  station_payload payload rows ->
  valid date_obj -> 2 <= year date_obj \/ 5 <= month date_obj ->
  exists prophix_date temp_node wind_node merged row out,
    get_prophix_date date_obj = Ok prophix_date /\
    next_station "raymer 9,360" rows = Ok temp_node /\
    next_station "raymer wind" rows = Ok wind_node /\
    raymer_merged temp_node wind_node = Ok merged /\
    find_station "Raymer" [] true merged rows = Ok (Some merged) /\
    truthy merged = true /\
    new_row prophix_date date_obj "Raymer" merged = Ok row /\
    process_data payload date_obj = Ok out /\
    filter (fun r => Location r = "Raymer") out = [row].
Proof.
  intros Hp Hv Hr. pose proof Hp as (p & _ & _ & Hall).
  eexists _, _, _, (PDict (raymer_record rows)), _, _.
  split; [by apply get_prophix_date_returns |].
  split; [by apply next_station_records |].
  split; [by apply next_station_records |].
  split; [by apply raymer_merged_records |].
  split; [done |].
  split; [cbn [truthy]; by rewrite bool_decide_eq_false_2
                             by apply merge_records_nonempty |].
  split; [by apply new_row_record |].
  split; [by apply process_data_records |].
  unfold mapped_rows.
  change target_defs with
    ([("Summit", ["summit"], false); ("RV_Bowl", ["rbowl"; "rendezvous bowl"], false)]
     ++ [("Raymer", [], true)]
     ++ [("MidMtn", ["mid mtn"; "mid mountain"], false);
         ("Buff", ["buff"], false); ("Base", ["base"], false)]).
  rewrite !omap_app, !filter_app.
  rewrite (no_target_no_row "Raymer" _ [_; _]);
    [| by apply target_row_location | by repeat constructor].
  rewrite (no_target_no_row "Raymer" _ [_; _; _]);
    [| by apply target_row_location | by repeat constructor].
  cbn [omap list_omap]. unfold raymer_record. rewrite target_row_merged.
  by rewrite filter_cons_True.
Qed.

(** The rows of the loop follow the targets, whatever the stations are. *)
Lemma scan_targets_sublist (defs : list (string * list string * bool))
    (prophix_date : string) (date_obj : datetime)
    (merged : pyval) (rows : list pyval) (out : list OutputRow) :
  scan_targets defs prophix_date date_obj merged rows = Ok out ->
  sublist (Location <$> out) (defs.*1.*1).
Proof.
  revert out. induction defs as [|[[target_name keywords] is_merged] defs IH];
    intros out; cbn [scan_targets].
  - intros [= <-]. constructor.
  - destruct (find_station _ _ _ _ _) as [[station|]|e]; rewrite ?bind_ok, ?bind_raise;
      [| intros Hout; apply sublist_cons; by apply IH | done].
    destruct (truthy station);
      [| intros Hout; apply sublist_cons; by apply IH].
    destruct (new_row _ _ _ _) as [row|e] eqn:Hrow; rewrite ?bind_ok, ?bind_raise;
      [| done].
    destruct (scan_targets defs _ _ _ _) as [more|e]; rewrite ?bind_ok, ?bind_raise;
      [| done].
    intros [= <-]. cbn [fmap list_fmap].
    rewrite (new_row_location _ _ _ _ _ Hrow). apply sublist_skip. by apply IH.
Qed.

Lemma process_rows_sublist (defs : list (string * list string * bool))
    (rows_data : pyval) (date_obj : datetime) (out : list OutputRow) :
  process_rows defs rows_data date_obj = Ok out ->
  sublist (Location <$> out) (defs.*1.*1).
Proof.
  unfold process_rows.
  destruct (get_prophix_date date_obj); rewrite ?bind_ok, ?bind_raise; [|done].
  destruct (py_iter rows_data) as [rows|e]; rewrite ?bind_ok, ?bind_raise; [|done].
  destruct (next_station "raymer 9,360" rows); rewrite ?bind_ok, ?bind_raise; [|done].
  destruct (next_station "raymer wind" rows); rewrite ?bind_ok, ?bind_raise; [|done].
  destruct (raymer_merged _ _); rewrite ?bind_ok, ?bind_raise; [|done].
  destruct (py_len rows_data); rewrite ?bind_ok, ?bind_raise; [|done].
  apply scan_targets_sublist.
Qed.

(** Whether a scan finds a station does not depend on the order of the
    stations. *)
Lemma find_perm (f : pyval -> bool) (rows1 rows2 : list pyval) :
  rows1 ≡ₚ rows2 -> is_Some (List.find f rows1) -> is_Some (List.find f rows2).
Proof.
  intros Hperm [r Hr]. apply find_some in Hr as [Hin Hf].
  destruct (List.find f rows2) eqn:Hfind; [done |].
  assert (In r rows2) as Hin2
    by (apply list_elem_of_In; rewrite <- Hperm; by apply list_elem_of_In).
  by rewrite (find_none _ _ Hfind r Hin2) in Hf.
Qed.

Lemma target_row_found (prophix_date : string) (date_obj : datetime)
    (merged : pyval) (rows : list pyval) (target_name : string)
    (keywords : list string) (is_merged : bool) :
  is_merged && String.eqb target_name "Raymer" = false ->
  Forall is_record rows -> any_in keywords "" = false ->
  is_Some (List.find (name_hasb keywords) rows) ->
  exists row,
    target_row prophix_date date_obj merged rows
               (target_name, keywords, is_merged) = Some row /\
    Location row = target_name.
Proof.
  intros Hm Hall Hkw [r Hr]. unfold target_row, selected. rewrite Hm, Hr.
  destruct (find_record _ _ _ Hall Hr) as [d ->].
  apply find_some in Hr as [_ Hd].
  rewrite bool_decide_eq_false_2 by (by eapply name_hasb_nonempty).
  by eexists.
Qed.

Lemma target_row_not_found (prophix_date : string) (date_obj : datetime)
    (merged : pyval) (rows : list pyval) (target_name : string)
    (keywords : list string) (is_merged : bool) :
  is_merged && String.eqb target_name "Raymer" = false ->
  List.find (name_hasb keywords) rows = None ->
  target_row prophix_date date_obj merged rows
             (target_name, keywords, is_merged) = None.
Proof. intros Hm Hr. unfold target_row, selected. by rewrite Hm, Hr. Qed.

Lemma target_row_perm (prophix_date : string) (date_obj : datetime)
    (rows1 rows2 : list pyval) (target : string * list string * bool) :
  any_in target.1.2 "" = false ->
  Forall is_record rows1 -> rows1 ≡ₚ rows2 ->
  Location <$> target_row prophix_date date_obj
                 (PDict (raymer_record rows1)) rows1 target =
  Location <$> target_row prophix_date date_obj
                 (PDict (raymer_record rows2)) rows2 target.
Proof.
  destruct target as [[target_name keywords] is_merged]; cbn [fst snd].
  intros Hkw Hall1 Hperm.
  assert (Forall is_record rows2) as Hall2 by (by rewrite <- Hperm).
  destruct (is_merged && String.eqb target_name "Raymer") eqn:Hm.
  - apply andb_true_iff in Hm as [-> Hname].
    apply String.eqb_eq in Hname as ->. unfold raymer_record.
    by rewrite !target_row_merged.
  - destruct (List.find (name_hasb keywords) rows1) as [r1|] eqn:Hfind1.
    + assert (is_Some (List.find (name_hasb keywords) rows1)) as Hs1
        by (by rewrite Hfind1).
      pose proof (find_perm _ _ _ Hperm Hs1) as Hs2.
      destruct (target_row_found prophix_date date_obj
                  (PDict (raymer_record rows1)) rows1 target_name keywords
                  is_merged Hm Hall1 Hkw Hs1) as (row1 & -> & Hl1).
      destruct (target_row_found prophix_date date_obj
                  (PDict (raymer_record rows2)) rows2 target_name keywords
                  is_merged Hm Hall2 Hkw Hs2) as (row2 & -> & Hl2).
      cbn. by rewrite Hl1, Hl2.
    + destruct (List.find (name_hasb keywords) rows2) as [r2|] eqn:Hfind2.
      * assert (is_Some (List.find (name_hasb keywords) rows2)) as Hs2
          by (by rewrite Hfind2).
        symmetry in Hperm. apply (find_perm _ _ _ Hperm) in Hs2.
        rewrite Hfind1 in Hs2. by destruct Hs2.
      * by rewrite !target_row_not_found.
Qed.

Lemma mapped_locations_perm (defs : list (string * list string * bool))
    (prophix_date : string) (date_obj : datetime) (rows1 rows2 : list pyval) :
  Forall (fun t : string * list string * bool => any_in t.1.2 "" = false) defs ->
  Forall is_record rows1 -> rows1 ≡ₚ rows2 ->
  Location <$> omap (target_row prophix_date date_obj
                       (PDict (raymer_record rows1)) rows1) defs =
  Location <$> omap (target_row prophix_date date_obj
                       (PDict (raymer_record rows2)) rows2) defs.
Proof.
  intros Hkw Hall Hperm. induction Hkw as [|t defs Ht _ IH]; [done |].
  cbn [omap list_omap].
  pose proof (target_row_perm prophix_date date_obj rows1 rows2 t Ht Hall Hperm)
    as Hrow.
  destruct (target_row _ _ (PDict (raymer_record rows1)) rows1 t),
           (target_row _ _ (PDict (raymer_record rows2)) rows2 t);
    cbn in Hrow; try done.
  injection Hrow as Hrow. cbn [fmap list_fmap]. by rewrite Hrow, IH.
Qed.

Lemma first_with_ext (P Q : pyval -> Prop) (rows : list pyval) (row : pyval) :
  (forall r, P r <-> Q r) -> first_with P rows row <-> first_with Q rows row.
Proof.
  intros HPQ. unfold first_with. split;
    intros (before & after & -> & Hrow & Hbefore); exists before, after;
    (repeat split; [by apply HPQ |]);
    eapply Forall_impl; [exact Hbefore | | exact Hbefore |];
    intros r Hr Hq; by apply Hr, HPQ.
Qed.

Lemma find_name_has (keywords : list string) (rows : list pyval) (row : pyval) :
  List.find (name_hasb keywords) rows = Some row <->
  first_with (name_has keywords) rows row.
Proof.
  rewrite find_first_with. apply first_with_ext. intros r. apply name_hasb_spec.
Qed.

Lemma find_no_name_has (keywords : list string) (rows : list pyval) :
  List.find (name_hasb keywords) rows = None <->
  Forall (fun r => ~ name_has keywords r) rows.
Proof.
  rewrite find_none_Forall.
  split; intros Hall; eapply Forall_impl; try exact Hall; intros r; cbv beta.
  - rewrite <- name_hasb_spec. by intros ->.
  - rewrite <- name_hasb_spec. by destruct (name_hasb keywords r).
Qed.

Lemma find_some_name_has (keywords : list string) (rows : list pyval) :
  Exists (name_has keywords) rows ->
  is_Some (List.find (name_hasb keywords) rows).
Proof.
  intros Hex. destruct (List.find _ rows) eqn:Hfind; [done |].
  apply find_no_name_has in Hfind. apply Exists_exists in Hex as (r & Hin & Hr).
  rewrite Forall_forall in Hfind. by destruct (Hfind r Hin).
Qed.

Lemma target_cases (target_name : string) (keywords : list string) :
  (target_name, keywords, false) ∈ target_defs ->
  any_in keywords "" = false.
Proof.
  intros Hin. pose proof target_defs_keywords as Hkw.
  rewrite Forall_forall in Hkw. by apply (Hkw _ Hin).
Qed.

(** C4. For a target other than Raymer, on any list of station records,
    the scan returns, and the station it selects is the first record, in
    the order of the payload, whose lower-cased display name has one of
    the keywords of the target as a substring; it selects none exactly
    when no record has. The selected station is the one its row is made
    from. A station called "RENDEZVOUS BOWL Upper" is selected for RV_Bowl,
    by the keyword "rendezvous bowl", when no station before it matches. *)
Theorem first_matching_station_selected (target_name : string)
    (keywords : list string) (merged : pyval) (rows : list pyval) :
  (target_name, keywords, false) ∈ target_defs ->
  Forall is_record rows ->
  returns (find_station target_name keywords false merged rows) /\
  (forall station,
      find_station target_name keywords false merged rows = Ok (Some station)
      <-> first_with (name_has keywords) rows station) /\
  (find_station target_name keywords false merged rows = Ok None
   <-> Forall (fun r => ~ name_has keywords r) rows) /\
  (forall payload date_obj d,
      station_payload payload rows ->
      valid date_obj -> 2 <= year date_obj \/ 5 <= month date_obj ->
      first_with (name_has keywords) rows (PDict d) ->
      exists prophix_date out,
        get_prophix_date date_obj = Ok prophix_date /\
        process_data payload date_obj = Ok out /\
        row_of prophix_date date_obj target_name d ∈ out) /\
  (forall d before after,
      d !! "display_name" = Some (PStr "RENDEZVOUS BOWL Upper") ->
      Forall is_record (before ++ PDict d :: after) ->
      Forall (fun r => ~ name_has ["rbowl"; "rendezvous bowl"] r) before ->
      contains "rendezvous bowl" (display_name d) = true /\
      find_station "RV_Bowl" ["rbowl"; "rendezvous bowl"] false merged
                   (before ++ PDict d :: after) = Ok (Some (PDict d))).
Proof.
  intros Hin Hall. rewrite find_station_records by done.
  unfold selected. cbn [andb].
  split; [by eexists |].
  split; [intros station; rewrite <- find_name_has;
          split; [by intros [= ->] | by intros ->] |].
  split; [rewrite <- find_no_name_has;
          split; [by intros [= ->] | by intros ->] |].
  split.
  - intros payload date_obj d Hp Hv Hr Hfirst.
    eexists _, _. split; [by apply get_prophix_date_returns |].
    split; [by apply process_data_records |].
    apply list_elem_of_omap. exists (target_name, keywords, false).
    split; [done |]. apply find_name_has in Hfirst.
    unfold target_row, selected. cbn [andb]. rewrite Hfirst.
    apply find_some in Hfirst as [_ Hd].
    rewrite bool_decide_eq_false_2; [done |].
    eapply name_hasb_nonempty; [|exact Hd]. by eapply target_cases.
  - intros d before after Hname Hall' Hbefore.
    assert (display_name d = "rendezvous bowl upper") as Hd
      by (unfold display_name; by rewrite Hname).
    split; [by rewrite Hd |].
    rewrite find_station_records by done. unfold selected. cbn [andb].
    f_equal. apply find_name_has. exists before, after.
    split; [done |]. split; [| done].
    apply name_hasb_spec. cbn [name_hasb]. by rewrite Hd.
Qed.

(** The targets have different names. *)
Lemma target_defs_unique (t t' : string * list string * bool) :
  t ∈ target_defs -> t' ∈ target_defs -> t.1.1 = t'.1.1 -> t = t'.
Proof.
  intros Ht Ht'. apply list_elem_of_In in Ht, Ht'. cbn in Ht, Ht'.
  destruct Ht as [<-|[<-|[<-|[<-|[<-|[<-|[]]]]]]];
    destruct Ht' as [<-|[<-|[<-|[<-|[<-|[<-|[]]]]]]]; cbn; by intros.
Qed.

(** Leaving out the targets that give no row does not change the rows. *)
Lemma omap_filter_none {A B : Type} (f : A -> option B) (P : A -> Prop)
    `{forall x, Decision (P x)} (l : list A) :
  (forall x, x ∈ l -> ~ P x -> f x = None) ->
  omap f (filter P l) = omap f l.
Proof.
  induction l as [|x l IH]; intros Hnone; [done |].
  assert (omap f (filter P l) = omap f l) as IH'
    by (apply IH; intros y Hy; apply Hnone; by right).
  destruct (decide (P x)) as [Hx|Hx].
  - rewrite filter_cons_True by done. cbn [omap list_omap]. by rewrite IH'.
  - rewrite filter_cons_False by done. cbn [omap list_omap].
    rewrite (Hnone x) by (done || by left). exact IH'.
Qed.

(** C6. On a payload of station records, a target other than Raymer none
    of whose keywords is in any lower-cased display name gives no row, and
    the rows are those of the other targets alone. When no station matches
    "buff" and every other target has a station, the rows are the five of
    Summit, RV_Bowl, Raymer, MidMtn and Base. *)
Theorem unmatched_target_skipped (payload : pyval) (rows : list pyval)
    (date_obj : datetime) :
  station_payload payload rows ->
  valid date_obj -> 2 <= year date_obj \/ 5 <= month date_obj ->
  exists out,
    process_data payload date_obj = Ok out /\
    (forall target_name keywords,
        (target_name, keywords, false) ∈ target_defs ->
        Forall (fun r => ~ name_has keywords r) rows ->
        Forall (fun row => Location row ≠ target_name) out /\
        process_rows (filter (fun t => t.1.1 ≠ target_name) target_defs)
                     (PList rows) date_obj = Ok out) /\
    (Forall (fun r => ~ name_has ["buff"] r) rows ->
     (forall target_name keywords,
         (target_name, keywords, false) ∈ target_defs ->
         target_name ≠ "Buff" -> Exists (name_has keywords) rows) ->
     Location <$> out = ["Summit"; "RV_Bowl"; "Raymer"; "MidMtn"; "Base"] /\
     length out = 5%nat).
Proof.
  intros Hp Hv Hr. exists (mapped_rows target_defs date_obj rows).
  split; [by apply process_data_records |].
  destruct Hp as (p & _ & _ & Hall). unfold mapped_rows.
  set (prophix_date := pretty (fiscal_year date_obj) +:+ "D"
                         +:+ zero_pad 3 (pretty (day_number date_obj))).
  set (merged := PDict (raymer_record rows)). split.
  - intros target_name keywords Hin Hno. apply find_no_name_has in Hno.
    pose proof (target_row_not_found prophix_date date_obj merged rows
                  target_name keywords false eq_refl Hno) as Hnone.
    split.
    + apply Forall_forall. intros row Hrow Hloc.
      apply list_elem_of_omap in Hrow as (t & Ht & Hrow).
      rewrite (target_row_location _ _ _ _ _ _ Hrow) in Hloc.
      rewrite (target_defs_unique t _ Ht Hin Hloc) in Hrow. congruence.
    + rewrite (process_rows_records _ _ _ prophix_date)
        by (done || by apply get_prophix_date_returns).
      f_equal. apply omap_filter_none. intros t Ht Hname.
      assert (t.1.1 = target_name) as Hloc
        by (by destruct (decide (t.1.1 = target_name))).
      by rewrite (target_defs_unique t _ Ht Hin Hloc).
  - intros Hbuff Hothers.
    assert (forall target_name keywords,
               (target_name, keywords, false) ∈ target_defs ->
               target_name ≠ "Buff" ->
               exists row, target_row prophix_date date_obj merged rows
                             (target_name, keywords, false) = Some row /\
                           Location row = target_name) as Hfound.
    { intros target_name keywords Hin Hname.
      apply target_row_found; [done | done | by eapply target_cases |].
      by eapply find_some_name_has, Hothers. }
    destruct (Hfound "Summit" ["summit"]) as (r1 & Hr1 & Hl1);
      [repeat constructor | done |].
    destruct (Hfound "RV_Bowl" ["rbowl"; "rendezvous bowl"]) as (r2 & Hr2 & Hl2);
      [repeat constructor | done |].
    destruct (Hfound "MidMtn" ["mid mtn"; "mid mountain"]) as (r3 & Hr3 & Hl3);
      [repeat constructor | done |].
    destruct (Hfound "Base" ["base"]) as (r4 & Hr4 & Hl4);
      [repeat constructor | done |].
    apply find_no_name_has in Hbuff.
    pose proof (target_row_not_found prophix_date date_obj merged rows
                  "Buff" ["buff"] false eq_refl Hbuff) as Hnone.
    unfold target_defs. cbn [omap list_omap].
    rewrite Hr1, Hr2, Hr3, Hr4, Hnone. unfold merged, raymer_record.
    rewrite target_row_merged. cbn [fmap list_fmap Location length].
    by rewrite Hl1, Hl2, Hl3, Hl4.
Qed.

(** C2, as amended. On station records, the merged Raymer record takes
    maxtemp and mintemp from the first station whose lower-cased display
    name contains "raymer 9,360", and avewindspd, maxgust and ttlwindmiles
    from the first whose name contains "raymer wind"; a station that is
    not there counts as a record without fields, and a field that is not
    there as [None]. Each of newsnow, depth and ttlsnowfall is the value
    of the temperature station when Python takes that value as true, and
    the value of the wind station otherwise; it is empty when both
    stations leave it empty. *)
Theorem raymer_merge_fields (rows : list pyval) :
  Forall is_record rows ->
  exists t w m,
    next_station "raymer 9,360" rows = Ok (PDict t) /\
    next_station "raymer wind" rows = Ok (PDict w) /\
    raymer_merged (PDict t) (PDict w) = Ok (PDict m) /\
    (forall r, first_with (name_has ["raymer 9,360"]) rows r -> r = PDict t) /\
    (Forall (fun r => ~ name_has ["raymer 9,360"] r) rows -> t = ∅) /\
    (forall r, first_with (name_has ["raymer wind"]) rows r -> r = PDict w) /\
    (Forall (fun r => ~ name_has ["raymer wind"] r) rows -> w = ∅) /\
    m !! "maxtemp" = Some (value t "maxtemp") /\
    m !! "mintemp" = Some (value t "mintemp") /\
    m !! "avewindspd" = Some (value w "avewindspd") /\
    m !! "maxgust" = Some (value w "maxgust") /\
    m !! "ttlwindmiles" = Some (value w "ttlwindmiles") /\
    (forall k, k ∈ ["newsnow"; "depth"; "ttlsnowfall"] ->
       exists v, m !! k = Some v /\
         (truthy (value t k) = true -> v = value t k) /\
         (truthy (value t k) = false -> v = value w k) /\
         (empty_value (value t k) -> empty_value (value w k) -> empty_value v)).
Proof.
  intros Hall.
  exists (fields (List.find (name_hasb ["raymer 9,360"]) rows)),
         (fields (List.find (name_hasb ["raymer wind"]) rows)),
         (raymer_record rows).
  split; [by apply next_station_records |].
  split; [by apply next_station_records |].
  split; [by apply raymer_merged_records |].
  split; [intros r Hr; apply find_name_has in Hr; rewrite Hr;
          by destruct (find_record _ _ _ Hall Hr) as [d ->] |].
  split; [intros Hno; apply find_no_name_has in Hno; by rewrite Hno |].
  split; [intros r Hr; apply find_name_has in Hr; rewrite Hr;
          by destruct (find_record _ _ _ Hall Hr) as [d ->] |].
  split; [intros Hno; apply find_no_name_has in Hno; by rewrite Hno |].
  set (t := fields _). set (w := fields _).
  do 5 (split; [reflexivity |]).
  intros k Hk. exists (py_or (value t k) (value w k)).
  split.
  - apply list_elem_of_In in Hk. cbn in Hk.
    by destruct Hk as [<-|[<-|[<-|[]]]].
  - unfold py_or. split; [by intros -> |]. split; [by intros -> |].
    intros [Ht|Ht] Hw; rewrite Ht; exact Hw.
Qed.

(** A target resolves to a station exactly when a station has one of its
    keywords in its name. *)
Lemma target_row_some_iff (prophix_date : string) (date_obj : datetime)
    (merged : pyval) (rows : list pyval) (target_name : string)
    (keywords : list string) :
  Forall is_record rows -> any_in keywords "" = false ->
  is_Some (target_row prophix_date date_obj merged rows
                      (target_name, keywords, false))
  <-> Exists (name_has keywords) rows.
Proof.
  intros Hall Hkw. split.
  - unfold target_row, selected. cbn [andb].
    destruct (List.find (name_hasb keywords) rows) as [r|] eqn:Hfind;
      [| by intros [? ?]].
    intros _. apply find_some in Hfind as [Hin Hr].
    apply Exists_exists. exists r. split; [by apply list_elem_of_In |].
    by apply name_hasb_spec.
  - intros Hex.
    destruct (target_row_found prophix_date date_obj merged rows target_name
                keywords false eq_refl Hall Hkw (find_some_name_has _ _ Hex))
      as (row & -> & _).
    by eexists.
Qed.

(** The name of a target is in the Location column exactly when the
    target has a row. *)
Lemma location_listed (f : string * list string * bool -> option OutputRow)
    (t : string * list string * bool) :
  (forall t' row, f t' = Some row -> Location row = t'.1.1) ->
  t ∈ target_defs ->
  t.1.1 ∈ Location <$> omap f target_defs <-> is_Some (f t).
Proof.
  intros Hloc Ht. split.
  - intros Hin. apply list_elem_of_fmap in Hin as (row & Hname & Hrow).
    apply list_elem_of_omap in Hrow as (t' & Ht' & Hrow).
    rewrite (Hloc _ _ Hrow) in Hname.
    rewrite (target_defs_unique t t' Ht Ht' Hname). by eexists.
  - intros [row Hrow]. apply list_elem_of_fmap. exists row.
    split; [by rewrite (Hloc _ _ Hrow) |].
    apply list_elem_of_omap. by exists t.
Qed.

(** C9. The rows [process_data] returns name the targets in the order
    Summit, RV_Bowl, Raymer, MidMtn, Buff, Base, with the targets that
    found no station left out, and only those: on station records Raymer
    is always named, and each other target is named exactly when a station
    has one of its keywords in its lower-cased display name. The targets
    named are the same for every order of the stations in the payload. *)
Theorem rows_in_target_order :
  (forall payload date_obj out,
      process_data payload date_obj = Ok out ->
      sublist (Location <$> out)
              ["Summit"; "RV_Bowl"; "Raymer"; "MidMtn"; "Buff"; "Base"]) /\
  (forall payload1 payload2 rows1 rows2 date_obj out1,
      station_payload payload1 rows1 -> station_payload payload2 rows2 ->
      rows1 ≡ₚ rows2 ->
      process_data payload1 date_obj = Ok out1 ->
      exists out2, process_data payload2 date_obj = Ok out2 /\
                   Location <$> out2 = Location <$> out1) /\
  (forall payload rows date_obj,
      station_payload payload rows ->
      valid date_obj -> 2 <= year date_obj \/ 5 <= month date_obj ->
      exists out,
        process_data payload date_obj = Ok out /\
        ("Summit" ∈ Location <$> out <-> Exists (name_has ["summit"]) rows) /\
        ("RV_Bowl" ∈ Location <$> out
         <-> Exists (name_has ["rbowl"; "rendezvous bowl"]) rows) /\
        "Raymer" ∈ Location <$> out /\
        ("MidMtn" ∈ Location <$> out
         <-> Exists (name_has ["mid mtn"; "mid mountain"]) rows) /\
        ("Buff" ∈ Location <$> out <-> Exists (name_has ["buff"]) rows) /\
        ("Base" ∈ Location <$> out <-> Exists (name_has ["base"]) rows)).
Proof.
  split; [| split].
  - intros payload date_obj out. unfold process_data.
    destruct (truthy payload); cbn [negb]; [| intros [= <-]; apply sublist_nil_l].
    destruct (py_in "data" payload) as [[|]|e]; rewrite ?bind_ok, ?bind_raise;
      cbn [negb]; [| intros [= <-]; apply sublist_nil_l | done].
    destruct (py_getitem payload "data") as [rows_data|e];
      rewrite ?bind_ok, ?bind_raise; [| done].
    apply process_rows_sublist.
  - intros payload1 payload2 rows1 rows2 date_obj out1 Hp1 Hp2 Hperm.
    rewrite (process_data_payload _ _ _ Hp1), (process_data_payload _ _ _ Hp2).
    destruct Hp1 as (_ & _ & _ & Hall1), Hp2 as (_ & _ & _ & Hall2).
    pose proof target_defs_keywords as Hkw. revert Hkw.
    generalize target_defs. intros defs Hkw.
    destruct (get_prophix_date date_obj) as [prophix_date|e] eqn:Hdate.
    + rewrite !(process_rows_records _ _ _ prophix_date) by done.
      intros [= <-]. eexists. split; [done |]. symmetry.
      by apply mapped_locations_perm.
    + unfold process_rows at 1. by rewrite Hdate.
  - intros payload rows date_obj Hp Hv Hr.
    exists (mapped_rows target_defs date_obj rows).
    split; [by apply process_data_records |].
    destruct Hp as (p & _ & _ & Hall). unfold mapped_rows.
    set (prophix_date := pretty (fiscal_year date_obj) +:+ "D"
                           +:+ zero_pad 3 (pretty (day_number date_obj))).
    set (merged := PDict (raymer_record rows)).
    assert (forall target_name keywords,
              (target_name, keywords, false) ∈ target_defs ->
              target_name ∈ Location <$>
                omap (target_row prophix_date date_obj merged rows) target_defs
              <-> Exists (name_has keywords) rows) as Hnamed.
    { intros target_name keywords Hin.
      rewrite (location_listed _ (target_name, keywords, false));
        [| apply target_row_location | exact Hin].
      apply target_row_some_iff; [exact Hall | by eapply target_cases]. }
    split; [apply Hnamed; by repeat constructor |].
    split; [apply Hnamed; by repeat constructor |].
    split; [| split; [apply Hnamed; by repeat constructor |];
              split; apply Hnamed; by repeat constructor].
    apply (location_listed _ ("Raymer", [], true));
      [apply target_row_location | by repeat constructor |].
    unfold merged, raymer_record. rewrite target_row_merged. by eexists.
Qed.

End MapperClaims.

(** ** The writer *)
Section WriterClaims.
Context `{CsvFormat}.

Lemma string_app_assoc (a b c : string) : (a +:+ b) +:+ c = a +:+ b +:+ c.
Proof.
  induction a as [|x a IH]; [done |].
  change (String x ((a +:+ b) +:+ c) = String x (a +:+ b +:+ c)).
  by rewrite IH.
Qed.

Lemma lines_text_app (l1 l2 : list string) :
  lines_text (l1 ++ l2) = lines_text l1 +:+ lines_text l2.
Proof.
  induction l1 as [|l l1 IH]; [done |].
  cbn [app lines_text foldr]. fold (lines_text (l1 ++ l2)). fold (lines_text l1).
  by rewrite IH, !string_app_assoc.
Qed.

Lemma header_line_text :
  header_line =
  "ProphixDate,Date,Location,NewSno,SnoDepth,SnoFall Tot,Max Temp,Min Temp,AvgWind,MaxGust,TotalWind".
Proof. reflexivity. Qed.

(** What [to_csv] leaves on disk when the table is not locked. *)
Lemma to_csv_unlocked (df : list OutputRow) (header : bool) (f : table_file) :
  locked f = false ->
  to_csv df header f =
  Ok (mk_table (Some (default "" (content f)
                      +:+ (if header then lines_text [header_line] else "")
                      +:+ lines_text (csv_rows df))) false).
Proof. intros Hl. unfold to_csv. by rewrite Hl. Qed.

(** C8. When the writer appends the rows of a frame that is not empty to a
    table no other program holds: if the file is not there, the file then
    holds the header line and after it the data lines, one for each row;
    if the file is there, the data lines are added to its end and no
    header line is written. A second run on the new file adds its data
    lines only. *)
Theorem table_append (df : list OutputRow) (date_obj : datetime)
    (f : table_file) :
  df ≠ [] -> locked f = false ->
  exists f' msg,
    write_table df date_obj f = Ok (f', msg) /\
    length (csv_rows df) = length df /\
    (content f = None ->
     content f' = Some (lines_text
       ("ProphixDate,Date,Location,NewSno,SnoDepth,SnoFall Tot,Max Temp,Min Temp,AvgWind,MaxGust,TotalWind"
        :: csv_rows df))) /\
    (forall old, content f = Some old ->
       content f' = Some (old +:+ lines_text (csv_rows df))) /\
    (forall df2 date2, df2 ≠ [] -> content f = None ->
       exists f'' msg2,
         write_table df2 date2 f' = Ok (f'', msg2) /\
         content f'' = Some (lines_text
           ("ProphixDate,Date,Location,NewSno,SnoDepth,SnoFall Tot,Max Temp,Min Temp,AvgWind,MaxGust,TotalWind"
            :: csv_rows df ++ csv_rows df2))).
Proof.
  intros Hdf Hl. destruct df as [|row df]; [done |].
  unfold write_table. rewrite to_csv_unlocked by done.
  eexists _, _. split; [reflexivity |].
  split; [apply csv_rows_length |].
  cbn [content]. unfold isfile. rewrite <- header_line_text.
  assert (forall lines, "" +:+ lines_text [header_line] +:+ lines_text lines
                        = lines_text (header_line :: lines)) as Hhead
    by (intros lines; symmetry; apply (lines_text_app [header_line])).
  split; [intros ->; cbn [default negb]; by rewrite Hhead |].
  split; [by intros old -> |].
  intros df2 date2 Hdf2 ->. destruct df2 as [|row2 df2]; [done |].
  rewrite to_csv_unlocked by done.
  eexists _, _. split; [reflexivity |]. cbn [content negb default].
  rewrite Hhead. f_equal.
  change (header_line :: csv_rows (row :: df) ++ csv_rows (row2 :: df2))
    with ((header_line :: csv_rows (row :: df)) ++ csv_rows (row2 :: df2)).
  by rewrite lines_text_app.
Qed.

End WriterClaims.

(** * Further properties *)

(** ** More on the fiscal date code *)
Section ProphixMore.

Lemma string_length_app (a b : string) :
  String.length (a +:+ b) = (String.length a + String.length b)%nat.
Proof.
  induction a as [|c a IH]; [done |].
  change (S (String.length (a +:+ b)) = S (String.length a + String.length b)).
  by rewrite IH.
Qed.

(** Two texts with tails of one length are equal part by part. *)
Lemma string_app_inj (a b s s' : string) :
  String.length s = String.length s' ->
  a +:+ s = b +:+ s' -> a = b /\ s = s'.
Proof.
  intros Hlen. revert b. induction a as [|c a IH]; intros [|c' b] Heq.
  - done.
  - apply (f_equal String.length) in Heq.
    change ("" +:+ s) with s in Heq. rewrite string_length_app in Heq.
    cbn in Heq. lia.
  - apply (f_equal String.length) in Heq.
    change ("" +:+ s') with s' in Heq. rewrite string_length_app in Heq.
    cbn in Heq. lia.
  - change (String c (a +:+ s) = String c' (b +:+ s')) in Heq.
    injection Heq as -> Heq. by destruct (IH _ Heq) as [-> ->].
Qed.

Lemma NoDup_fmap_inj_on {A B : Type} (f : A -> B) (l : list A) (x y : A) :
  NoDup (f <$> l) -> x ∈ l -> y ∈ l -> f x = f y -> x = y.
Proof.
  induction l as [|a l IH]; intros Hnd Hx Hy Hf; [by apply elem_of_nil in Hx |].
  cbn in Hnd. apply NoDup_cons in Hnd as [Ha Hnd].
  apply elem_of_cons in Hx as [->|Hx], Hy as [->|Hy]; [done | | | by apply IH].
  - destruct Ha. rewrite Hf. by apply list_elem_of_fmap_2.
  - destruct Ha. rewrite <- Hf. by apply list_elem_of_fmap_2.
Qed.

(** The three digits tell the day number. *)
Lemma day_digits_inj (m n : Z) :
  1 <= m <= 366 -> 1 <= n <= 366 ->
  zero_pad 3 (pretty m) = zero_pad 3 (pretty n) -> m = n.
Proof.
  intros Hm Hn.
  assert (NoDup ((fun k => zero_pad 3 (pretty k)) <$> seqZ 1 366)) as Hnd
    by (apply (bool_decide_unpack _); vm_compute; exact I).
  apply (NoDup_fmap_inj_on _ _ m n Hnd); apply elem_of_seqZ; lia.
Qed.

(** Within one fiscal year the day number tells the day. *)
Lemma day_number_inj (t1 t2 : datetime) :
  valid t1 -> valid t2 ->
  fiscal_year t1 = fiscal_year t2 -> day_number t1 = day_number t2 ->
  year t1 = year t2 /\ month t1 = month t2 /\ day t1 = day t2.
Proof.
  intros [Hd1 _] [Hd2 _]. apply check_date_fields_spec in Hd1, Hd2.
  destruct Hd1 as (Hy1 & Hm1 & Hd1), Hd2 as (Hy2 & Hm2 & Hd2).
  unfold day_number, fiscal_year, ymd2ord.
  destruct (5 <=? month t1) eqn:H1, (5 <=? month t2) eqn:H2;
    rewrite ?Z.leb_le, ?Z.leb_gt in *; intros Hy Hn.
  - rewrite Hy in *. revert Hd1 Hd2 Hn H1 H2.
    unfold days_in_month, days_before_month.
    generalize (days_before_year (year t2)); intros D.
    destruct (is_leap (year t2));
      destruct (month_cases _ Hm1) as [->|[->|[->|[->|[->|[->|[->|[->|[->|[->|[->| ->]]]]]]]]]]];
      destruct (month_cases _ Hm2) as [->|[->|[->|[->|[->|[->|[->|[->|[->|[->|[->| ->]]]]]]]]]]];
      simpl; lia.
  - exfalso. assert (year t2 - 1 = year t1) as Hp by lia. rewrite Hp in Hn.
    assert (year t2 = year t1 + 1) as Hy' by lia.
    rewrite Hy' in Hn, Hd2. rewrite days_before_year_succ in Hn.
    revert Hd1 Hd2 Hn H1 H2. unfold days_in_month, days_before_month.
    generalize (days_before_year (year t1)); intros D.
    destruct (is_leap (year t1)), (is_leap (year t1 + 1));
      destruct (month_cases _ Hm1) as [->|[->|[->|[->|[->|[->|[->|[->|[->|[->|[->| ->]]]]]]]]]]];
      destruct (month_cases _ Hm2) as [->|[->|[->|[->|[->|[->|[->|[->|[->|[->|[->| ->]]]]]]]]]]];
      simpl; lia.
  - exfalso. assert (year t1 - 1 = year t2) as Hp by lia. rewrite Hp in Hn.
    assert (year t1 = year t2 + 1) as Hy' by lia.
    rewrite Hy' in Hn, Hd1. rewrite days_before_year_succ in Hn.
    revert Hd1 Hd2 Hn H1 H2. unfold days_in_month, days_before_month.
    generalize (days_before_year (year t2)); intros D.
    destruct (is_leap (year t2)), (is_leap (year t2 + 1));
      destruct (month_cases _ Hm1) as [->|[->|[->|[->|[->|[->|[->|[->|[->|[->|[->| ->]]]]]]]]]]];
      destruct (month_cases _ Hm2) as [->|[->|[->|[->|[->|[->|[->|[->|[->|[->|[->| ->]]]]]]]]]]];
      simpl; lia.
  - assert (year t1 = year t2) as Hy' by lia. rewrite Hy' in *.
    revert Hd1 Hd2 Hn H1 H2. unfold days_in_month, days_before_month.
    generalize (days_before_year (year t2)), (days_before_year (year t2 - 1));
      intros D D'.
    destruct (is_leap (year t2)), (is_leap (year t2 - 1));
      destruct (month_cases _ Hm1) as [->|[->|[->|[->|[->|[->|[->|[->|[->|[->|[->| ->]]]]]]]]]]];
      destruct (month_cases _ Hm2) as [->|[->|[->|[->|[->|[->|[->|[->|[->|[->|[->| ->]]]]]]]]]]];
      simpl; lia.
Qed.

Lemma prophix_returns_range (t : datetime) :
  valid t -> returns (get_prophix_date t) -> 2 <= year t \/ 5 <= month t.
Proof.
  intros [Hd _] [code Hcode]. apply check_date_fields_spec in Hd.
  destruct (decide (2 <= year t \/ 5 <= month t)) as [Hr|Hr]; [done |].
  assert (year t = 1 /\ month t < 5) as [Hy Hm] by lia.
  unfold get_prophix_date in Hcode.
  assert ((5 <=? month t) = false) as Hlt by (apply Z.leb_gt; lia).
  rewrite Hlt, Hy in Hcode. discriminate Hcode.
Qed.

(** X1. The code of a date does not depend on the time of the day: two
    datetimes on one calendar day get the same code, or both raise. *)
Theorem prophix_ignores_time (t1 t2 : datetime) :
  valid t1 -> valid t2 ->
  year t1 = year t2 -> month t1 = month t2 -> day t1 = day t2 ->
  get_prophix_date t1 = get_prophix_date t2.
Proof.
  intros Hv1 Hv2 Hy Hm Hd. unfold get_prophix_date. rewrite Hy, Hm.
  unfold datetime_new. destruct (check_date_fields _ 5 1); [|done].
  rewrite !bind_ok, !datetime_sub_midnight by done.
  unfold toordinal. by rewrite Hy, Hm, Hd.
Qed.

(** X2. On the dates [datetime] has, [get_prophix_date] raises in the
    first four months of year 1, with [ValueError], and nowhere else. *)
Theorem prophix_raises_iff (t : datetime) :
  valid t ->
  (get_prophix_date t = Raise ValueError <-> year t = 1 /\ month t < 5) /\
  (returns (get_prophix_date t) <-> 2 <= year t \/ 5 <= month t).
Proof.
  intros Hv. pose proof Hv as [Hd _]. apply check_date_fields_spec in Hd.
  destruct (decide (2 <= year t \/ 5 <= month t)) as [Hr|Hr].
  - rewrite (get_prophix_date_returns t Hv Hr). split.
    + split; [done | lia].
    + split; [done | by eexists].
  - assert (year t = 1 /\ month t < 5) as [Hy Hm] by lia.
    assert (get_prophix_date t = Raise ValueError) as ->.
    { unfold get_prophix_date.
      assert ((5 <=? month t) = false) as -> by (apply Z.leb_gt; lia).
      by rewrite Hy. }
    split; [done |]. split; [by intros [? ?] | done].
Qed.

(** X3. The last day of a fiscal year, April 30, is day 366 when its
    calendar year is a leap year and day 365 otherwise. *)
Theorem fiscal_year_last_day (y h mi sec us : Z) :
  2 <= y <= 9999 -> check_time_fields h mi sec us = true ->
  get_prophix_date (mk_datetime y 4 30 h mi sec us) =
  Ok (pretty (y - 1) +:+ "D" +:+ (if is_leap y then "366" else "365")).
Proof.
  intros Hy Ht.
  assert (valid (mk_datetime y 4 30 h mi sec us)) as Hv.
  { split; [|exact Ht]. apply check_date_fields_spec. cbn [year month day].
    split; [lia |]. split; [lia |]. unfold days_in_month. simpl. lia. }
  rewrite get_prophix_date_returns by (done || (left; cbn; lia)).
  unfold day_number, fiscal_year. cbn [year month day].
  change (5 <=? 4) with false. cbv iota.
  assert (ymd2ord y 4 30 - ymd2ord (y - 1) 5 1 + 1
          = if is_leap y then 366 else 365) as ->.
  { unfold ymd2ord. pose proof (days_before_year_succ (y - 1)) as Hs.
    replace (y - 1 + 1) with y in Hs by lia. rewrite Hs.
    unfold days_before_month.
    generalize (days_before_year (y - 1)); intros D.
    destruct (is_leap y), (is_leap (y - 1)); simpl; lia. }
  by destruct (is_leap y).
Qed.

(** X4. Different calendar days get different codes: the code tells the
    year, the month and the day of the date. *)
Theorem prophix_injective (t1 t2 : datetime) (code : string) :
  valid t1 -> valid t2 ->
  get_prophix_date t1 = Ok code -> get_prophix_date t2 = Ok code ->
  year t1 = year t2 /\ month t1 = month t2 /\ day t1 = day t2.
Proof.
  intros Hv1 Hv2 H1 H2.
  assert (2 <= year t1 \/ 5 <= month t1) as Hr1
    by (apply (prophix_returns_range t1 Hv1); by eexists).
  assert (2 <= year t2 \/ 5 <= month t2) as Hr2
    by (apply (prophix_returns_range t2 Hv2); by eexists).
  rewrite get_prophix_date_returns in H1, H2 by done.
  rewrite <- H2 in H1. injection H1 as Heq.
  pose proof (day_number_range t1 Hv1) as Hn1.
  pose proof (day_number_range t2 Hv2) as Hn2.
  rewrite <- !string_app_assoc in Heq.
  apply string_app_inj in Heq as [Hfy Hdn].
  - apply string_app_inj in Hfy as [Hfy _]; [|done].
    apply (inj pretty) in Hfy. apply day_digits_inj in Hdn; [|done..].
    by apply day_number_inj.
  - destruct (format_03d_digits _ Hn1) as [<- ->].
    by destruct (format_03d_digits _ Hn2) as [<- ->].
Qed.

End ProphixMore.

(** ** More on the mapper *)
Section MapperMore.
Context `{PyRepr}.

(** [raymer_merged] returns on two dictionaries and on nothing else. *)
Lemma raymer_merged_shape (t w m : pyval) :
  raymer_merged t w = Ok m ->
  exists dt dw, t = PDict dt /\ w = PDict dw /\ m = PDict (merge_records dt dw).
Proof.
  intros Hm. destruct t as [| | | | | |dt]; try discriminate Hm.
  destruct w as [| | | | | |dw]; try discriminate Hm.
  rewrite raymer_merged_records in Hm. injection Hm as <-. by exists dt, dw.
Qed.

Lemma scan_targets_app (defs1 defs2 : list (string * list string * bool))
    (prophix_date : string) (date_obj : datetime)
    (merged : pyval) (rows : list pyval) :
  scan_targets (defs1 ++ defs2) prophix_date date_obj merged rows =
  (out1 ← scan_targets defs1 prophix_date date_obj merged rows;
   out2 ← scan_targets defs2 prophix_date date_obj merged rows;
   mret (out1 ++ out2)).
Proof.
  induction defs1 as [|[[target_name keywords] is_merged] defs1 IH].
  - cbn [app scan_targets]. rewrite ret_ok, bind_ok.
    by destruct (scan_targets defs2 _ _ _ _).
  - cbn [app scan_targets]. rewrite IH.
    destruct (find_station _ _ _ _ _) as [[station|]|e];
      rewrite ?bind_ok, ?bind_raise; try done.
    destruct (truthy station); [|done].
    destruct (new_row _ _ _ _) as [row|e]; rewrite ?bind_ok, ?bind_raise; [|done].
    destruct (scan_targets defs1 _ _ _ _) as [out1|e];
      rewrite ?bind_ok, ?bind_raise; [|done].
    by destruct (scan_targets defs2 _ _ _ _).
Qed.

(** When the loop returns, the Raymer row is among the rows. *)
Lemma scan_targets_merged_row (defs1 defs2 : list (string * list string * bool))
    (keywords : list string) (prophix_date : string) (date_obj : datetime)
    (dt dw : gmap string pyval) (rows : list pyval) (out : list OutputRow) :
  scan_targets (defs1 ++ ("Raymer", keywords, true) :: defs2)
               prophix_date date_obj (PDict (merge_records dt dw)) rows = Ok out ->
  row_of prophix_date date_obj "Raymer" (merge_records dt dw) ∈ out.
Proof.
  rewrite scan_targets_app.
  destruct (scan_targets defs1 _ _ _ _) as [out1|e];
    rewrite ?bind_ok, ?bind_raise; [|done].
  cbn [scan_targets].
  change (find_station "Raymer" keywords true (PDict (merge_records dt dw)) rows)
    with (Ok (Some (PDict (merge_records dt dw)))).
  rewrite bind_ok. cbn [truthy].
  rewrite bool_decide_eq_false_2 by apply merge_records_nonempty. cbn [negb].
  rewrite new_row_record, bind_ok.
  destruct (scan_targets defs2 _ _ _ _) as [more|e];
    rewrite ?bind_ok, ?bind_raise; [|done].
  intros [= <-]. apply elem_of_app. right. by left.
Qed.

Lemma scan_targets_raymer (prophix_date : string) (date_obj : datetime)
    (dt dw : gmap string pyval) (rows : list pyval) (out : list OutputRow) :
  scan_targets target_defs prophix_date date_obj
               (PDict (merge_records dt dw)) rows = Ok out ->
  row_of prophix_date date_obj "Raymer" (merge_records dt dw) ∈ out.
Proof.
  apply (scan_targets_merged_row
           [("Summit", ["summit"], false);
            ("RV_Bowl", ["rbowl"; "rendezvous bowl"], false)]
           [("MidMtn", ["mid mtn"; "mid mountain"], false);
            ("Buff", ["buff"], false); ("Base", ["base"], false)]).
Qed.

Lemma process_rows_raymer (rows_data : pyval) (date_obj : datetime)
    (out : list OutputRow) :
  process_rows target_defs rows_data date_obj = Ok out ->
  exists row, row ∈ out /\ Location row = "Raymer".
Proof.
  unfold process_rows.
  destruct (get_prophix_date date_obj) as [prophix_date|e];
    rewrite ?bind_ok, ?bind_raise; [|done].
  destruct (py_iter rows_data) as [rows|e]; rewrite ?bind_ok, ?bind_raise; [|done].
  destruct (next_station "raymer 9,360" rows) as [t|e];
    rewrite ?bind_ok, ?bind_raise; [|done].
  destruct (next_station "raymer wind" rows) as [w|e];
    rewrite ?bind_ok, ?bind_raise; [|done].
  destruct (raymer_merged t w) as [m|e] eqn:Hm;
    rewrite ?bind_ok, ?bind_raise; [|done].
  destruct (py_len rows_data); rewrite ?bind_ok, ?bind_raise; [|done].
  apply raymer_merged_shape in Hm as (dt & dw & _ & _ & ->).
  intros Hout. apply scan_targets_raymer in Hout. by eexists.
Qed.

(** X5. [process_data] returns the empty frame only from its guard: when
    the payload is false for Python or 'data' is not in it. Once it has
    read 'data' and returns, the Raymer row is among the rows. *)
Theorem no_rows_only_without_data (payload : pyval) (date_obj : datetime)
    (out : list OutputRow) :
  process_data payload date_obj = Ok out ->
  (out = [] <-> truthy payload = false \/ py_in "data" payload = Ok false) /\
  (out ≠ [] -> exists row, row ∈ out /\ Location row = "Raymer").
Proof.
  unfold process_data. destruct (truthy payload); cbn [negb];
    [| intros [= <-]; split; [split; [by left | done] | done]].
  destruct (py_in "data" payload) as [[|]|e]; rewrite ?bind_ok, ?bind_raise;
    cbn [negb]; [| intros [= <-]; split; [split; [by right | done] | done] | done].
  destruct (py_getitem payload "data") as [rows_data|e];
    rewrite ?bind_ok, ?bind_raise; [|done].
  intros Hout. destruct (process_rows_raymer _ _ _ Hout) as (row & Hrow & Hloc).
  split; [|by exists row]. split.
  - intros ->. by apply elem_of_nil in Hrow.
  - by intros [|].
Qed.

(** X6. A frame has at most one row for a target, and so at most six. *)
Theorem one_row_per_target (payload : pyval) (date_obj : datetime)
    (out : list OutputRow) :
  process_data payload date_obj = Ok out ->
  NoDup (Location <$> out) /\ (length out <= 6)%nat.
Proof.
  intros Hout.
  assert (sublist (Location <$> out) (target_defs.*1.*1)) as Hsub.
  { revert Hout. unfold process_data.
    destruct (truthy payload); cbn [negb]; [| intros [= <-]; apply sublist_nil_l].
    destruct (py_in "data" payload) as [[|]|e]; rewrite ?bind_ok, ?bind_raise;
      cbn [negb]; [| intros [= <-]; apply sublist_nil_l | done].
    destruct (py_getitem payload "data") as [rows_data|e];
      rewrite ?bind_ok, ?bind_raise; [| done].
    apply process_rows_sublist. }
  split.
  - eapply sublist_NoDup; [| exact Hsub].
    apply (bool_decide_unpack _). vm_compute. exact I.
  - apply sublist_length in Hsub. by rewrite length_fmap in Hsub.
Qed.

Lemma new_row_dates (prophix_date : string) (date_obj : datetime)
    (target_name : string) (station : pyval) (row : OutputRow) :
  new_row prophix_date date_obj target_name station = Ok row ->
  ProphixDate row = prophix_date /\ Date row = strftime_ymd date_obj.
Proof. destruct station; try done. rewrite new_row_record. by intros [= <-]. Qed.

Lemma scan_targets_dates (defs : list (string * list string * bool))
    (prophix_date : string) (date_obj : datetime)
    (merged : pyval) (rows : list pyval) (out : list OutputRow) :
  scan_targets defs prophix_date date_obj merged rows = Ok out ->
  Forall (fun row => ProphixDate row = prophix_date /\
                     Date row = strftime_ymd date_obj) out.
Proof.
  revert out. induction defs as [|[[target_name keywords] is_merged] defs IH];
    intros out; cbn [scan_targets].
  - intros [= <-]. constructor.
  - destruct (find_station _ _ _ _ _) as [[station|]|e]; rewrite ?bind_ok, ?bind_raise;
      [| apply IH | done].
    destruct (truthy station); [| apply IH].
    destruct (new_row _ _ _ _) as [row|e] eqn:Hrow; rewrite ?bind_ok, ?bind_raise;
      [| done].
    destruct (scan_targets defs _ _ _ _) as [more|e]; rewrite ?bind_ok, ?bind_raise;
      [| done].
    intros [= <-]. constructor; [by eapply new_row_dates | by apply IH].
Qed.

(** From year 1000 on a year has its four digits. *)
Lemma four_digit_year (y : Z) :
  1000 <= y <= 9999 -> zero_pad 4 (pretty y) = pretty y.
Proof.
  intros Hy.
  assert (forallb (fun k => bool_decide (zero_pad 4 (pretty k) = pretty k))
                  (seqZ 1000 9000) = true) as Hall by (vm_compute; reflexivity).
  rewrite forallb_forall in Hall.
  assert (In y (seqZ 1000 9000)) as Hin
    by (apply list_elem_of_In, elem_of_seqZ; lia).
  apply Hall in Hin. by apply bool_decide_eq_true in Hin.
Qed.

Lemma iso_date_length (t : datetime) :
  valid t -> String.length (iso_date t) = 10%nat.
Proof.
  intros [Hd _]. apply check_date_fields_spec in Hd as (Hy & Hm & Hday).
  assert (days_in_month (year t) (month t) <= 31) as Hdim.
  { unfold days_in_month. destruct (_ && _); [lia |].
    destruct (month_cases _ Hm) as [-> | [-> | [-> | [-> | [-> | [-> |
      [-> | [-> | [-> | [-> | [-> | ->]]]]]]]]]]]; simpl; lia. }
  assert (forallb (fun k => bool_decide
            (String.length (zero_pad 4 (pretty k)) = 4%nat)) (seqZ 1 9999) = true)
    as Hyears by (vm_compute; reflexivity).
  assert (forallb (fun k => bool_decide
            (String.length (zero_pad 2 (pretty k)) = 2%nat)) (seqZ 1 31) = true)
    as Htwo by (vm_compute; reflexivity).
  rewrite forallb_forall in Hyears, Htwo.
  assert (String.length (zero_pad 4 (pretty (year t))) = 4%nat) as Hly.
  { apply (bool_decide_unpack _), Is_true_true, Hyears, list_elem_of_In, elem_of_seqZ.
    lia. }
  assert (String.length (zero_pad 2 (pretty (month t))) = 2%nat) as Hlm.
  { apply (bool_decide_unpack _), Is_true_true, Htwo, list_elem_of_In, elem_of_seqZ.
    lia. }
  assert (String.length (zero_pad 2 (pretty (day t))) = 2%nat) as Hld.
  { apply (bool_decide_unpack _), Is_true_true, Htwo, list_elem_of_In, elem_of_seqZ.
    lia. }
  unfold iso_date. rewrite !string_length_app, Hly, Hlm, Hld. reflexivity.
Qed.

(** From year 1000 on [strftime('%Y-%m-%d')] writes YYYY-MM-DD. *)
Lemma strftime_iso (t : datetime) :
  valid t -> 1000 <= year t -> strftime_ymd t = iso_date t.
Proof.
  intros [Hd _] Hy. apply check_date_fields_spec in Hd as (Hy' & _).
  unfold strftime_ymd, iso_date. rewrite four_digit_year by lia. reflexivity.
Qed.

(** X7. Every row of a frame carries the code of the day the run is for
    and, for a date from year 1000 on, that date as the ten characters
    YYYY-MM-DD; before year 1000 the year has fewer than four digits and
    its text is left to the C library. *)
Theorem rows_carry_run_date (payload : pyval) (date_obj : datetime)
    (out : list OutputRow) (row : OutputRow) :
  process_data payload date_obj = Ok out -> row ∈ out ->
  get_prophix_date date_obj = Ok (ProphixDate row) /\
  (valid date_obj -> 1000 <= year date_obj ->
   Date row = iso_date date_obj /\ String.length (Date row) = 10%nat).
Proof.
  unfold process_data. destruct (truthy payload); cbn [negb];
    [| intros [= <-] Hrow; by apply elem_of_nil in Hrow].
  destruct (py_in "data" payload) as [[|]|e]; rewrite ?bind_ok, ?bind_raise;
    cbn [negb]; [| intros [= <-] Hrow; by apply elem_of_nil in Hrow | done].
  destruct (py_getitem payload "data") as [rows_data|e];
    rewrite ?bind_ok, ?bind_raise; [| done].
  unfold process_rows.
  destruct (get_prophix_date date_obj) as [prophix_date|e];
    rewrite ?bind_ok, ?bind_raise; [|done].
  destruct (py_iter rows_data) as [rows|e]; rewrite ?bind_ok, ?bind_raise; [|done].
  destruct (next_station "raymer 9,360" rows) as [t|e];
    rewrite ?bind_ok, ?bind_raise; [|done].
  destruct (next_station "raymer wind" rows) as [w|e];
    rewrite ?bind_ok, ?bind_raise; [|done].
  destruct (raymer_merged t w) as [m|e]; rewrite ?bind_ok, ?bind_raise; [|done].
  destruct (py_len rows_data); rewrite ?bind_ok, ?bind_raise; [|done].
  intros Hout Hrow. apply scan_targets_dates in Hout.
  rewrite Forall_forall in Hout. destruct (Hout row Hrow) as [-> ->].
  split; [reflexivity |]. intros Hv Hy. rewrite (strftime_iso _ Hv Hy).
  split; [reflexivity | by apply iso_date_length].
Qed.

Lemma process_data_dict (p : gmap string pyval) (v : pyval)
    (date_obj : datetime) :
  p !! "data" = Some v ->
  process_data (PDict p) date_obj = process_rows target_defs v date_obj.
Proof.
  intros Hdata. unfold process_data. cbn [truthy py_in py_getitem].
  assert (p ≠ ∅) as Hne by (intros ->; by rewrite lookup_empty in Hdata).
  rewrite (bool_decide_eq_false_2 _ Hne). cbn [negb].
  rewrite bool_decide_eq_true_2 by (by rewrite Hdata).
  rewrite bind_ok. cbn [negb]. by rewrite Hdata, bind_ok.
Qed.

Lemma d_name_not_record (x : pyval) :
  ~ is_record x -> d_name x = Raise AttributeError.
Proof. intros Hx. destruct x; try done. destruct Hx. by eexists. Qed.

(** A scan that finds nothing before a value that is not a record fails
    on that value. *)
Lemma first_match_raises (keywords : list string)
    (before after : list pyval) (x : pyval) :
  Forall is_record before ->
  List.find (name_hasb keywords) before = None -> ~ is_record x ->
  first_match keywords (before ++ x :: after) = Raise AttributeError.
Proof.
  intros Hall Hnone Hx. induction Hall as [|r before [d ->] _ IH].
  - cbn [app first_match]. by rewrite (d_name_not_record x Hx).
  - cbn [app first_match]. rewrite d_name_record, bind_ok.
    cbn [List.find name_hasb] in Hnone.
    destruct (any_in keywords (display_name d)); [done |]. by apply IH.
Qed.

(** A scan that finds a station does not look past it. *)
Lemma first_match_found (keywords : list string)
    (good rest : list pyval) (r : pyval) :
  Forall is_record good ->
  List.find (name_hasb keywords) good = Some r ->
  first_match keywords (good ++ rest) = Ok (Some r).
Proof.
  intros Hall Hfind. induction Hall as [|r' good [d ->] _ IH]; [done |].
  cbn [app first_match]. rewrite d_name_record, bind_ok.
  cbn [List.find name_hasb] in Hfind.
  destruct (any_in keywords (display_name d));
    [by injection Hfind as <- | by apply IH].
Qed.

(** X8. When 'data' is not a list: a value that cannot be iterated over
    ([None], a boolean, a number) makes [process_data] raise [TypeError];
    a dictionary or a string that is not empty makes it raise
    [AttributeError], on the first key or character. *)
Theorem data_not_a_list (p : gmap string pyval) (v : pyval)
    (date_obj : datetime) :
  p !! "data" = Some v ->
  valid date_obj -> 2 <= year date_obj \/ 5 <= month date_obj ->
  (scalar v -> process_data (PDict p) date_obj = Raise TypeError) /\
  (forall m, v = PDict m -> m ≠ ∅ ->
     process_data (PDict p) date_obj = Raise AttributeError) /\
  (forall text, v = PStr text -> text ≠ "" ->
     process_data (PDict p) date_obj = Raise AttributeError).
Proof.
  intros Hdata Hv Hr. rewrite (process_data_dict _ _ _ Hdata).
  unfold process_rows. rewrite (get_prophix_date_returns _ Hv Hr), bind_ok.
  split; [by destruct v |]. split.
  - intros m -> Hm. cbn [py_iter]. rewrite bind_ok.
    destruct (map_to_list m) as [|[k x] l] eqn:Hl;
      [by apply map_to_list_empty_iff in Hl |].
    reflexivity.
  - intros text -> Htext. destruct text as [|c text]; [done |]. reflexivity.
Qed.

(** The loop fails on a value that is not a record when a target that is
    not merged has no match before that value. *)
Lemma scan_targets_reached (defs : list (string * list string * bool))
    (prophix_date : string) (date_obj : datetime) (m : gmap string pyval)
    (before after : list pyval) (x : pyval) :
  Forall is_record before -> ~ is_record x ->
  Exists (fun t : string * list string * bool =>
            t.2 && String.eqb t.1.1 "Raymer" = false /\
            List.find (name_hasb t.1.2) before = None) defs ->
  scan_targets defs prophix_date date_obj (PDict m) (before ++ x :: after)
  = Raise AttributeError.
Proof.
  intros Hall Hx. induction defs as [|[[target_name keywords] is_merged] defs IH];
    intros Hex; [by apply Exists_nil in Hex |].
  cbn [scan_targets]. unfold find_station.
  apply Exists_cons in Hex. cbn [fst snd] in Hex.
  destruct (is_merged && String.eqb target_name "Raymer") eqn:Hm.
  - destruct Hex as [[? _] | Hex]; [done |]. rewrite bind_ok, (IH Hex).
    by destruct (truthy (PDict m)).
  - destruct (List.find (name_hasb keywords) before) as [r|] eqn:Hfind.
    + destruct Hex as [[_ ?] | Hex]; [done |].
      rewrite (first_match_found _ _ _ _ Hall Hfind), bind_ok, (IH Hex).
      destruct (find_record _ _ _ Hall Hfind) as [d ->].
      by destruct (truthy (PDict d)).
    + by rewrite (first_match_raises _ _ _ _ Hall Hfind Hx).
Qed.

(** The loop does not look at what comes after the stations when every
    target that is not merged finds its station among them. *)
Lemma scan_targets_found (defs : list (string * list string * bool))
    (prophix_date : string) (date_obj : datetime) (m : gmap string pyval)
    (good rest : list pyval) :
  Forall is_record good ->
  Forall (fun t : string * list string * bool =>
            t.2 && String.eqb t.1.1 "Raymer" = false ->
            is_Some (List.find (name_hasb t.1.2) good)) defs ->
  scan_targets defs prophix_date date_obj (PDict m) (good ++ rest)
  = scan_targets defs prophix_date date_obj (PDict m) good.
Proof.
  intros Hall. induction 1 as [|[[target_name keywords] is_merged] defs Ht _ IH];
    [done |].
  cbn [scan_targets]. unfold find_station. cbn [fst snd] in Ht.
  destruct (is_merged && String.eqb target_name "Raymer") eqn:Hm.
  - by rewrite IH.
  - destruct (Ht eq_refl) as [r Hfind].
    rewrite (first_match_found _ _ _ _ Hall Hfind), IH.
    by rewrite first_match_records, Hfind.
Qed.

Lemma scan_keywords_eq :
  scan_keywords =
  [["raymer 9,360"]; ["raymer wind"]; ["summit"]; ["rbowl"; "rendezvous bowl"];
   ["mid mtn"; "mid mountain"]; ["buff"]; ["base"]].
Proof. reflexivity. Qed.

(** X9. A value in the 'data' list that is not a record makes
    [process_data] raise [AttributeError] as soon as one of its scans has
    no match among the records before that value. *)
Theorem non_record_reached (p : gmap string pyval)
    (before after : list pyval) (x : pyval) (date_obj : datetime) :
  p !! "data" = Some (PList (before ++ x :: after)) ->
  Forall is_record before -> ~ is_record x ->
  Exists (fun keywords => Forall (fun r => ~ name_has keywords r) before)
         scan_keywords ->
  valid date_obj -> 2 <= year date_obj \/ 5 <= month date_obj ->
  process_data (PDict p) date_obj = Raise AttributeError.
Proof.
  intros Hdata Hall Hx Hscan Hv Hr. rewrite (process_data_dict _ _ _ Hdata).
  unfold process_rows. rewrite (get_prophix_date_returns _ Hv Hr), bind_ok.
  cbn [py_iter]. rewrite bind_ok. unfold next_station.
  destruct (List.find (name_hasb ["raymer 9,360"]) before) as [t|] eqn:Ht;
    [| by rewrite (first_match_raises _ _ _ _ Hall Ht Hx)].
  rewrite (first_match_found _ _ _ _ Hall Ht), bind_ok, ret_ok, bind_ok.
  destruct (find_record _ _ _ Hall Ht) as [dt ->]. cbn [default from_option id].
  destruct (List.find (name_hasb ["raymer wind"]) before) as [w|] eqn:Hw;
    [| by rewrite (first_match_raises _ _ _ _ Hall Hw Hx)].
  rewrite (first_match_found _ _ _ _ Hall Hw), bind_ok, ret_ok, bind_ok.
  destruct (find_record _ _ _ Hall Hw) as [dw ->]. cbn [default from_option id].
  rewrite raymer_merged_records, bind_ok. cbn [py_len]. rewrite bind_ok.
  apply scan_targets_reached; [done | done |].
  apply Exists_exists in Hscan as (keywords & Hin & Hno).
  apply find_no_name_has in Hno.
  apply list_elem_of_In in Hin. cbn in Hin.
  destruct Hin as [<-|[<-|[<-|[<-|[<-|[<-|[<-|[]]]]]]]]; [congruence | congruence | ..];
    apply Exists_exists.
  - exists ("Summit", ["summit"], false). by repeat constructor.
  - exists ("RV_Bowl", ["rbowl"; "rendezvous bowl"], false). by repeat constructor.
  - exists ("MidMtn", ["mid mtn"; "mid mountain"], false). by repeat constructor.
  - exists ("Buff", ["buff"], false). by repeat constructor.
  - exists ("Base", ["base"], false). by repeat constructor.
Qed.

(** X10. What follows the station records in the 'data' list is never
    looked at when every scan finds its station among the records: the
    rows are those of the records alone, whatever follows. *)
Theorem trailing_values_ignored (p : gmap string pyval)
    (good rest : list pyval) (date_obj : datetime) :
  p !! "data" = Some (PList (good ++ rest)) ->
  Forall is_record good ->
  Forall (fun keywords => Exists (name_has keywords) good) scan_keywords ->
  valid date_obj -> 2 <= year date_obj \/ 5 <= month date_obj ->
  process_data (PDict p) date_obj = Ok (mapped_rows target_defs date_obj good) /\
  process_data (PDict p) date_obj = process_data (payload_of good) date_obj.
Proof.
  intros Hdata Hall Hscan Hv Hr.
  assert (process_data (payload_of good) date_obj
          = Ok (mapped_rows target_defs date_obj good)) as Hgood.
  { apply process_data_records; [| exact Hv | exact Hr].
    exists {[ "data" := PList good ]}.
    split; [reflexivity |]. split; [apply lookup_singleton_eq | exact Hall]. }
  rewrite Hgood.
  cut (process_data (PDict p) date_obj
       = Ok (mapped_rows target_defs date_obj good));
    [intros ->; split; reflexivity |].
  rewrite (process_data_dict _ _ _ Hdata).
  unfold process_rows. rewrite (get_prophix_date_returns _ Hv Hr), bind_ok.
  cbn [py_iter]. rewrite bind_ok. unfold next_station.
  rewrite scan_keywords_eq in Hscan.
  apply Forall_cons in Hscan as [Hk1 Hscan].
  apply Forall_cons in Hscan as [Hk2 Hscan].
  apply Forall_cons in Hscan as [Hk3 Hscan].
  apply Forall_cons in Hscan as [Hk4 Hscan].
  apply Forall_cons in Hscan as [Hk5 Hscan].
  apply Forall_cons in Hscan as [Hk6 Hscan].
  apply Forall_cons in Hscan as [Hk7 _].
  apply find_some_name_has in Hk1, Hk2, Hk3, Hk4, Hk5, Hk6, Hk7.
  destruct Hk1 as [t Ht]. destruct Hk2 as [w Hw].
  rewrite (first_match_found _ _ _ _ Hall Ht), bind_ok, ret_ok, bind_ok.
  rewrite (first_match_found _ _ _ _ Hall Hw), bind_ok, ret_ok, bind_ok.
  destruct (find_record _ _ _ Hall Ht) as [dt ->].
  destruct (find_record _ _ _ Hall Hw) as [dw ->]. cbn [default from_option id].
  rewrite raymer_merged_records, bind_ok. cbn [py_len]. rewrite bind_ok.
  rewrite scan_targets_found; [| exact Hall |].
  - rewrite scan_targets_records by exact Hall.
    unfold mapped_rows, raymer_record. rewrite Ht, Hw. reflexivity.
  - unfold target_defs.
    repeat (apply Forall_cons; split; [intros Hm; cbn [fst snd] |]);
      try apply Forall_nil; try assumption; try exact I.
    discriminate Hm.
Qed.

(** X11. When none of the station records is a Raymer station, both
    scans give the empty dictionary, and the dictionary [new_row] made
    for the Raymer target from the merged record holds [None] under its
    eight metric keys, where the dictionary of another target holds the
    empty string for a field its station does not have. That dictionary
    is in [extracted_rows]. This is said of the dictionaries the frame is
    made from, before pandas gives the columns their types. *)
Theorem no_raymer_station_blank_row (rows : list pyval)
    (prophix_date : string) (date_obj : datetime) :
  Forall is_record rows ->
  Forall (fun r => ~ name_has ["raymer 9,360"] r) rows ->
  Forall (fun r => ~ name_has ["raymer wind"] r) rows ->
  exists merged,
    next_station "raymer 9,360" rows = Ok (PDict ∅) /\
    next_station "raymer wind" rows = Ok (PDict ∅) /\
    raymer_merged (PDict ∅) (PDict ∅) = Ok merged /\
    truthy merged = true /\
    new_row prophix_date date_obj "Raymer" merged =
      Ok (blank_raymer_row prophix_date date_obj) /\
    exists extracted_rows,
      scan_targets target_defs prophix_date date_obj merged rows
        = Ok extracted_rows /\
      blank_raymer_row prophix_date date_obj ∈ extracted_rows.
Proof.
  intros Hall Ht Hw. apply find_no_name_has in Ht, Hw.
  exists (PDict (merge_records ∅ ∅)).
  split; [rewrite next_station_records by exact Hall; by rewrite Ht |].
  split; [rewrite next_station_records by exact Hall; by rewrite Hw |].
  split; [apply raymer_merged_records |].
  split; [reflexivity |].
  split; [reflexivity |].
  exists (omap (target_row prophix_date date_obj (PDict (merge_records ∅ ∅)) rows)
               target_defs).
  split; [by apply scan_targets_records |].
  apply list_elem_of_omap. exists ("Raymer", [], true).
  split; [by repeat constructor |].
  by rewrite target_row_merged.
Qed.

End MapperMore.

(** ** A run, and runs *)
Section RunMore.
Context `{PyRepr} `{CsvFormat}.

Lemma string_app_nil_r (a : string) : a +:+ "" = a.
Proof.
  induction a as [|c a IH]; [done |].
  change (String c (a +:+ "") = String c a). by rewrite IH.
Qed.

(** What [write_table] does to the table: nothing, or an append. It never
    raises, and leaves the lock as it is. *)
Lemma write_table_appends (df : list OutputRow) (date_obj : datetime)
    (f : table_file) :
  exists f' msg,
    write_table df date_obj f = Ok (f', msg) /\
    (f' = f \/
     locked f = false /\ df ≠ [] /\
     f' = mk_table
            (Some (default "" (content f)
                   +:+ (if isfile f then "" else lines_text [header_line])
                   +:+ lines_text (csv_rows df))) false).
Proof.
  unfold write_table. destruct df as [|row df]; [eexists _, _; by split; [|left] |].
  unfold to_csv. destruct (locked f) eqn:Hl.
  - eexists _, _. split; [reflexivity | by left].
  - eexists _, _. split; [reflexivity |]. right.
    split; [done |]. split; [done |]. by destruct (isfile f).
Qed.

Lemma main_failed (yesterday : datetime) (e : string) (w : world) :
  main yesterday (Failed e) w =
  Ok (write_log "API request failed (Check internet or URL)."
        (write_log ("Error fetching data: " +:+ e)
           (write_log "Starting Daily Scrape..." w))).
Proof. reflexivity. Qed.

Lemma main_falsy (yesterday : datetime) (json : pyval) (w : world) :
  truthy json = false ->
  main yesterday (Body json) w =
  Ok (write_log "API request failed (Check internet or URL)."
        (write_log "Starting Daily Scrape..." w)).
Proof. intros Hf. unfold main. cbn [get_btac_data]. by rewrite Hf. Qed.

Lemma main_body (yesterday : datetime) (json : pyval) (w : world) :
  truthy json = true ->
  main yesterday (Body json) w =
  (df_new ← process_data json yesterday;
   written ← write_table df_new yesterday (table w);
   mret (write_log written.2
           (mk_world written.1 (log (write_log "Starting Daily Scrape..." w))
                     (log_fails w)))).
Proof.
  intros Ht. unfold main. cbn [get_btac_data]. rewrite Ht.
  assert (table (write_log "Starting Daily Scrape..." w) = table w) as ->
    by (unfold write_log; by destruct (log_fails w)).
  assert (log_fails (write_log "Starting Daily Scrape..." w) = log_fails w) as ->
    by (unfold write_log; by destruct (log_fails w) eqn:Hl).
  reflexivity.
Qed.

Lemma write_log_table (message : string) (w : world) :
  table (write_log message w) = table w.
Proof. unfold write_log. by destruct (log_fails w). Qed.

(** The table after a run: the one before, or the one [write_table]
    leaves. *)
Lemma main_table (yesterday : datetime) (answer : fetched) (w w' : world) :
  main yesterday answer w = Ok w' ->
  table w' = table w \/
  exists df msg, df ≠ [] /\ locked (table w) = false /\
    write_table df yesterday (table w) = Ok (table w', msg).
Proof.
  destruct answer as [e|json].
  - rewrite main_failed. intros [= <-]. left. by rewrite !write_log_table.
  - destruct (truthy json) eqn:Ht.
    + rewrite main_body by done.
      destruct (process_data json yesterday) as [df|e];
        rewrite ?bind_ok, ?bind_raise; [|done].
      destruct (write_table_appends df yesterday (table w))
        as (f' & msg & Hw & Hf'). rewrite Hw, bind_ok.
      intros [= <-]. rewrite write_log_table. cbn [table fst].
      destruct Hf' as [-> | (Hl & Hdf & ->)]; [by left |].
      right. exists df, msg. by rewrite Hw.
    + rewrite main_falsy by done. intros [= <-]. left.
      by rewrite !write_log_table.
Qed.

(** X12. A run never rewrites the table: when it returns, the text that
    was in the file is still there, at the start of the file. *)
Theorem table_append_only (yesterday : datetime) (answer : fetched)
    (w w' : world) (old : string) :
  main yesterday answer w = Ok w' ->
  content (table w) = Some old ->
  exists added, content (table w') = Some (old +:+ added).
Proof.
  intros Hmain Hold.
  destruct (main_table _ _ _ _ Hmain) as [-> | (df & msg & _ & _ & Hw)].
  - exists "". by rewrite string_app_nil_r.
  - destruct (write_table_appends df yesterday (table w))
      as (f' & msg' & Hw' & Hf'). rewrite Hw' in Hw. injection Hw as <- _.
    destruct Hf' as [-> | (_ & _ & ->)].
    + exists "". by rewrite string_app_nil_r.
    + cbn [content]. rewrite Hold. by eexists.
Qed.

Lemma write_table_headed (df : list OutputRow) (date_obj : datetime)
    (f f' : table_file) (msg : string) :
  headed f -> write_table df date_obj f = Ok (f', msg) -> headed f'.
Proof.
  intros Hh Hw.
  destruct (write_table_appends df date_obj f) as (f'' & msg' & Hw' & Hf').
  rewrite Hw' in Hw. injection Hw as <- _.
  destruct Hf' as [-> | (_ & _ & ->)]; [done |].
  unfold headed, isfile in *. cbn [content].
  destruct (content f) as [text|].
  - destruct Hh as [lines ->]. exists (lines ++ csv_rows df).
    change (header_line :: lines ++ csv_rows df)
      with ((header_line :: lines) ++ csv_rows df).
    by rewrite lines_text_app.
  - exists (csv_rows df). symmetry. apply (lines_text_app [header_line]).
Qed.

Lemma main_headed (yesterday : datetime) (answer : fetched) (w w' : world) :
  headed (table w) -> main yesterday answer w = Ok w' -> headed (table w').
Proof.
  intros Hh Hmain.
  destruct (main_table _ _ _ _ Hmain) as [-> | (df & msg & _ & _ & Hw)];
    [done | by eapply write_table_headed].
Qed.

(** X13. A table that is not there or begins with the header line is so
    again after any number of runs, whatever they fetch: the header is
    written by the first write and stays the first line. *)
Theorem header_kept (days : list (datetime * fetched)) (w w' : world) :
  headed (table w) -> runs days w = Ok w' -> headed (table w').
Proof.
  revert w. induction days as [|[yesterday answer] days IH]; intros w Hh.
  - by intros [= <-].
  - cbn [runs]. destruct (main yesterday answer w) as [w1|e] eqn:Hmain;
      rewrite ?bind_ok, ?bind_raise; [|done].
    apply IH. by eapply main_headed.
Qed.

(** X14. A run on a table that another program holds locked leaves the
    table as it is; when there are rows to write it logs the error
    message and returns. *)
Theorem locked_table_untouched (yesterday : datetime) (json : pyval)
    (w : world) :
  locked (table w) = true ->
  (forall answer w', main yesterday answer w = Ok w' -> table w' = table w) /\
  (forall row df,
      truthy json = true ->
      process_data json yesterday = Ok (row :: df) ->
      log_fails w = false ->
      main yesterday (Body json) w =
      Ok (mk_world (table w)
            (log w ++ ["Starting Daily Scrape...";
                       "ERROR: Could not write to BTAC_History.csv. Is the Excel file open?"])
            false)).
Proof.
  intros Hl. split.
  - intros answer w' Hmain.
    destruct (main_table _ _ _ _ Hmain) as [-> | (df & msg & _ & Hl' & _)];
      [done | congruence].
  - intros row df Ht Hdf Hlog. rewrite main_body by done.
    rewrite Hdf, bind_ok. unfold write_table, to_csv. rewrite Hl.
    rewrite ret_ok, bind_ok. unfold write_log. cbn [log_fails fst snd].
    rewrite Hlog. cbn [table log log_fails]. by rewrite <- app_assoc.
Qed.

(** X15. When the fetch fails, or when it returns a body that is false
    for Python (an empty object or list, [null], 0), the table is not
    touched and the run ends with the message that the request failed. *)
Theorem nothing_fetched (yesterday : datetime) (answer : fetched)
    (w : world) :
  log_fails w = false ->
  (forall e, answer = Failed e ->
     main yesterday answer w =
     Ok (mk_world (table w)
           (log w ++ ["Starting Daily Scrape..."; "Error fetching data: " +:+ e;
                      "API request failed (Check internet or URL)."])
           false)) /\
  (forall json, answer = Body json -> truthy json = false ->
     main yesterday answer w =
     Ok (mk_world (table w)
           (log w ++ ["Starting Daily Scrape...";
                      "API request failed (Check internet or URL)."])
           false)).
Proof.
  intros Hlog. split.
  - intros e ->. rewrite main_failed. unfold write_log. rewrite Hlog.
    cbn [table log log_fails]. by rewrite <- !app_assoc.
  - intros json -> Hf. rewrite main_falsy by done. unfold write_log.
    rewrite Hlog. cbn [table log log_fails]. by rewrite <- !app_assoc.
Qed.


(** X17. What a run does to the table does not depend on the log: the
    same table, and the same answer, give the same table whether or not
    the log can be written and whatever it holds. *)
Theorem table_independent_of_log (yesterday : datetime) (answer : fetched)
    (f : table_file) (log1 log2 : list string) (fails1 fails2 : bool)
    (w1 : world) :
  main yesterday answer (mk_world f log1 fails1) = Ok w1 ->
  exists w2,
    main yesterday answer (mk_world f log2 fails2) = Ok w2 /\
    table w2 = table w1.
Proof.
  destruct answer as [msg|json].
  - rewrite !main_failed. intros [= <-]. eexists. split; [reflexivity |].
    by rewrite !write_log_table.
  - destruct (truthy json) eqn:Ht.
    + rewrite !main_body by done. cbn [table].
      destruct (process_data json yesterday) as [df|e];
        rewrite ?bind_ok, ?bind_raise; [|done].
      destruct (write_table_appends df yesterday f) as (f' & msg & -> & _).
      rewrite !bind_ok. intros [= <-]. eexists. split; [reflexivity |].
      by rewrite !write_log_table.
    + rewrite !main_falsy by done. intros [= <-]. eexists.
      split; [reflexivity |]. by rewrite !write_log_table.
Qed.

(** X18. A run that fetches a payload of station records, for a date
    from year 1000 on, with the table free and the log working: it
    appends the rows of [process_data], between one and six, with the
    header line before them when the file was not there, and logs the
    start and the count of the rows with the date as YYYY-MM-DD. *)
Theorem successful_run (json : pyval) (rows : list pyval)
    (yesterday : datetime) (w : world) :
  station_payload json rows ->
  valid yesterday -> 1000 <= year yesterday ->
  locked (table w) = false -> log_fails w = false ->
  exists df,
    process_data json yesterday = Ok df /\
    (1 <= length df <= 6)%nat /\
    main yesterday (Body json) w =
    Ok (mk_world
          (mk_table
             (Some (default "" (content (table w))
                    +:+ (if isfile (table w) then "" else lines_text [header_line])
                    +:+ lines_text (csv_rows df))) false)
          (log w ++ ["Starting Daily Scrape...";
                     "SUCCESS: Appended " +:+ pretty (length df)
                       +:+ " rows for " +:+ iso_date yesterday +:+ "."])
          false).
Proof.
  intros Hp Hv Hy Hl Hlog.
  assert (2 <= year yesterday \/ 5 <= month yesterday) as Hr by (left; lia).
  rewrite <- (strftime_iso _ Hv Hy).
  pose proof (process_data_records _ _ _ Hp Hv Hr) as Hdf.
  exists (mapped_rows target_defs yesterday rows).
  split; [exact Hdf |].
  assert (truthy json = true) as Ht.
  { destruct Hp as (p & -> & Hdata & _). cbn [truthy].
    rewrite bool_decide_eq_false_2; [reflexivity |].
    intros ->. by rewrite lookup_empty in Hdata. }
  assert (exists row df, mapped_rows target_defs yesterday rows = row :: df)
    as (row & df & Heq).
  { pose proof Hdf as Hrows. rewrite (process_data_payload _ _ _ Hp) in Hrows.
    apply process_rows_raymer in Hrows as (row & Hrow & _).
    destruct (mapped_rows target_defs yesterday rows) as [|row' df'];
      [by apply elem_of_nil in Hrow | by eexists _, _]. }
  split.
  - split; [rewrite Heq; cbn [length]; lia |].
    pose proof Hdf as Hrows. rewrite (process_data_payload _ _ _ Hp) in Hrows.
    apply process_rows_sublist, sublist_length in Hrows.
    rewrite length_fmap in Hrows. exact Hrows.
  - rewrite main_body by exact Ht. rewrite Hdf, bind_ok.
    generalize dependent (mapped_rows target_defs yesterday rows).
    intros out _ ->. unfold write_table, to_csv. rewrite Hl.
    rewrite !ret_ok, !bind_ok. unfold write_log. cbn [log_fails fst snd].
    rewrite Hlog. cbn [table log log_fails]. rewrite <- app_assoc.
    by destruct (isfile (table w)).
Qed.

End RunMore.

(** ** The properties at work on the sample inputs *)

#[local] Existing Instance repr_unused.

Lemma payload_of_stations (rows : list pyval) :
  Forall is_record rows -> station_payload (payload_of rows) rows.
Proof.
  intros Hall. exists {[ "data" := PList rows ]}.
  split; [done |]. split; [apply lookup_singleton_eq | done].
Qed.

Ltac records := repeat constructor; by eexists.

Lemma may_day_valid : valid may_day /\ (2 <= year may_day \/ 5 <= month may_day).
Proof. split; [by split | left; cbn; lia]. Qed.

(** C3 fails on the code. The only station is the Raymer temperature
    station, with a maximum temperature and no other field: the Raymer row
    carries [None], not the empty string, in the seven columns whose field
    the station does not have. *)
Theorem raymer_row_holds_none :
  process_data (payload_of raymer_temp_only) may_day =
  Ok [mk_row "2026D001" "2026-05-01" "Raymer"
        PNone PNone PNone (PStr "20") PNone PNone PNone PNone].
Proof. vm_compute. reflexivity. Qed.

(** C2, as stated, fails when the temperature station reports the number
    0: that value is not empty, and yet the merged record takes the value
    of the wind station. *)
Lemma raymer_merge_zero_snow :
  ~ empty_value (PInt 0) /\
  get_or (station "Raymer 9,360" [("maxtemp", PInt 31); ("newsnow", PInt 0)])
         (station "Raymer Wind" [("avewindspd", PInt 12); ("newsnow", PInt 2)])
         "newsnow" = Ok (PInt 2) /\
  process_data (payload_of zero_snow) may_day =
  Ok [mk_row "2026D001" "2026-05-01" "Raymer"
        (PInt 2) PNone PNone (PInt 31) PNone (PInt 12) PNone PNone].
Proof.
  split; [by intros [|] |]. split; vm_compute; reflexivity.
Qed.

Lemma raymer_merge_fields_witness :
  Forall is_record zero_snow /\
  exists t w m,
    next_station "raymer 9,360" zero_snow = Ok (PDict t) /\
    next_station "raymer wind" zero_snow = Ok (PDict w) /\
    raymer_merged (PDict t) (PDict w) = Ok (PDict m) /\
    m !! "maxtemp" = Some (value t "maxtemp") /\
    m !! "avewindspd" = Some (value w "avewindspd").
Proof.
  assert (Forall is_record zero_snow) as Hall by records.
  split; [exact Hall |].
  destruct (raymer_merge_fields zero_snow Hall)
    as (t & w & m & Ht & Hw & Hm & _ & _ & _ & _ & Hmax & _ & Hwind & _).
  exists t, w, m. repeat split; assumption.
Defined.

Lemma first_matching_station_selected_witness :
  ("RV_Bowl", ["rbowl"; "rendezvous bowl"], false) ∈ target_defs /\
  Forall is_record no_buff /\
  returns (find_station "RV_Bowl" ["rbowl"; "rendezvous bowl"] false PNone no_buff).
Proof.
  assert (Forall is_record no_buff) as Hall by records.
  assert (("RV_Bowl", ["rbowl"; "rendezvous bowl"], false) ∈ target_defs) as Hin
    by repeat constructor.
  split; [exact Hin |]. split; [exact Hall |].
  by destruct (first_matching_station_selected
                 "RV_Bowl" ["rbowl"; "rendezvous bowl"] PNone no_buff Hin Hall)
    as [Hret _].
Defined.



Lemma unmatched_target_skipped_witness :
  station_payload (payload_of no_buff) no_buff /\
  valid may_day /\ (2 <= year may_day \/ 5 <= month may_day) /\
  exists out, process_data (payload_of no_buff) may_day = Ok out.
Proof.
  assert (station_payload (payload_of no_buff) no_buff) as Hp
    by (apply payload_of_stations; records).
  destruct may_day_valid as [Hv Hr].
  split; [exact Hp |]. split; [exact Hv |]. split; [exact Hr |].
  destruct (unmatched_target_skipped _ _ _ Hp Hv Hr) as (out & Hout & _).
  exists out. exact Hout.
Defined.

Lemma raymer_row_always_witness :
  station_payload (payload_of no_buff) no_buff /\
  valid may_day /\ (2 <= year may_day \/ 5 <= month may_day) /\
  exists row out,
    process_data (payload_of no_buff) may_day = Ok out /\
    filter (fun r => Location r = "Raymer") out = [row].
Proof.
  assert (station_payload (payload_of no_buff) no_buff) as Hp
    by (apply payload_of_stations; records).
  destruct may_day_valid as [Hv Hr].
  split; [exact Hp |]. split; [exact Hv |]. split; [exact Hr |].
  destruct (raymer_row_always _ _ _ Hp Hv Hr)
    as (pd & t & w & m & row & out & _ & _ & _ & _ & _ & _ & _ & Hout & Hone).
  exists row, out. split; [exact Hout | exact Hone].
Defined.

Lemma process_data_total_witness :
  station_payload (payload_of no_buff) no_buff /\
  valid may_day /\ (2 <= year may_day \/ 5 <= month may_day) /\
  returns (process_data (payload_of no_buff) may_day).
Proof.
  assert (station_payload (payload_of no_buff) no_buff) as Hp
    by (apply payload_of_stations; records).
  destruct may_day_valid as [Hv Hr].
  split; [exact Hp |]. split; [exact Hv |]. split; [exact Hr |].
  exact (process_data_total _ _ _ Hp Hv Hr).
Defined.

Lemma no_buff_has_summit : Exists (name_has ["summit"]) no_buff.
Proof.
  apply Exists_exists.
  exists (station "Summit 10,450" []). split; [by repeat constructor |].
  apply name_hasb_spec. vm_compute. reflexivity.
Qed.

Lemma no_buff_has_no_buff : ~ Exists (name_has ["buff"]) no_buff.
Proof.
  intros Hex. apply find_some_name_has in Hex as [r Hr].
  vm_compute in Hr. discriminate Hr.
Qed.

Lemma rows_in_target_order_witness :
  station_payload (payload_of no_buff) no_buff /\
  station_payload (payload_of no_buff_shuffled) no_buff_shuffled /\
  no_buff ≡ₚ no_buff_shuffled /\
  valid may_day /\ (2 <= year may_day \/ 5 <= month may_day) /\
  process_data (payload_of no_buff) may_day =
    Ok (mapped_rows target_defs may_day no_buff) /\
  sublist (Location <$> mapped_rows target_defs may_day no_buff)
          ["Summit"; "RV_Bowl"; "Raymer"; "MidMtn"; "Buff"; "Base"] /\
  (exists out2,
    process_data (payload_of no_buff_shuffled) may_day = Ok out2 /\
    Location <$> out2 = Location <$> mapped_rows target_defs may_day no_buff) /\
  exists out,
    process_data (payload_of no_buff) may_day = Ok out /\
    "Summit" ∈ Location <$> out /\ "Raymer" ∈ Location <$> out /\
    "Buff" ∉ Location <$> out.
Proof.
  assert (station_payload (payload_of no_buff) no_buff) as Hp1
    by (apply payload_of_stations; records).
  assert (station_payload (payload_of no_buff_shuffled) no_buff_shuffled) as Hp2
    by (apply payload_of_stations; records).
  assert (no_buff ≡ₚ no_buff_shuffled) as Hperm.
  { symmetry. unfold no_buff_shuffled.
    match goal with |- ?x :: ?l ≡ₚ _ => change no_buff with (l ++ [x]) end.
    apply Permutation_cons_append. }
  destruct may_day_valid as [Hv Hr].
  pose proof (process_data_records _ _ _ Hp1 Hv Hr) as Hout.
  destruct rows_in_target_order as (Horder & Hany & Hnamed).
  split; [exact Hp1 |]. split; [exact Hp2 |]. split; [exact Hperm |].
  split; [exact Hv |]. split; [exact Hr |].
  split; [exact Hout |]. split; [exact (Horder _ _ _ Hout) |].
  split; [exact (Hany _ _ _ _ _ _ Hp1 Hp2 Hperm Hout) |].
  destruct (Hnamed _ _ _ Hp1 Hv Hr)
    as (out & Hout' & Hsummit & _ & Hraymer & _ & Hbuff & _).
  exists out. split; [exact Hout' |].
  split; [apply Hsummit; exact no_buff_has_summit |].
  split; [exact Hraymer |].
  intros Hin. apply Hbuff in Hin. exact (no_buff_has_no_buff Hin).
Defined.

(** The rows of the sample without a Buff station. *)
Example no_buff_rows :
  Location <$> mapped_rows target_defs may_day no_buff =
  ["Summit"; "RV_Bowl"; "Raymer"; "MidMtn"; "Base"].
Proof. vm_compute. reflexivity. Qed.

#[local] Existing Instance plain_csv.

Lemma table_append_witness :
  mapped_rows target_defs may_day no_buff ≠ [] /\
  locked (mk_table None false) = false /\
  exists f' msg,
    write_table (mapped_rows target_defs may_day no_buff) may_day
                (mk_table None false) = Ok (f', msg) /\
    length (csv_rows (mapped_rows target_defs may_day no_buff))
      = length (mapped_rows target_defs may_day no_buff).
Proof.
  assert (mapped_rows target_defs may_day no_buff ≠ []) as Hne
    by (intros Heq; apply (f_equal length) in Heq; vm_compute in Heq;
        discriminate Heq).
  split; [exact Hne |]. split; [reflexivity |].
  destruct (table_append (mapped_rows target_defs may_day no_buff) may_day
              (mk_table None false) Hne eq_refl)
    as (f' & msg & Hw & Hlen & _).
  exists f', msg. split; [exact Hw | exact Hlen].
Defined.

(** The first write of the sample, line by line. *)
Example first_write :
  write_table (mapped_rows target_defs may_day no_buff) may_day
              (mk_table None false) =
  Ok (mk_table (Some (lines_text
    ["ProphixDate,Date,Location,NewSno,SnoDepth,SnoFall Tot,Max Temp,Min Temp,AvgWind,MaxGust,TotalWind";
     "2026D001,2026-05-01,Summit,,,,,,,,";
     "2026D001,2026-05-01,RV_Bowl,,88,,,,,,";
     "2026D001,2026-05-01,Raymer,,,,,,,35,";
     "2026D001,2026-05-01,MidMtn,,,,,,,,";
     "2026D001,2026-05-01,Base,,,,40,,,,"])) false,
      "SUCCESS: Appended 5 rows for 2026-05-01.").
Proof. vm_compute. reflexivity. Qed.

(** ** The further properties at work *)

Lemma may_day_late_valid : valid may_day_late.
Proof. split; reflexivity. Qed.

Lemma prophix_ignores_time_witness :
  valid may_day /\ valid may_day_late /\
  year may_day = year may_day_late /\ month may_day = month may_day_late /\
  day may_day = day may_day_late /\
  get_prophix_date may_day = get_prophix_date may_day_late.
Proof.
  destruct may_day_valid as [Hv _]. pose proof may_day_late_valid as Hv'.
  split; [exact Hv |]. split; [exact Hv' |].
  split; [reflexivity |]. split; [reflexivity |]. split; [reflexivity |].
  exact (prophix_ignores_time may_day may_day_late Hv Hv' eq_refl eq_refl eq_refl).
Defined.

Lemma prophix_raises_iff_witness :
  valid may_day /\
  (returns (get_prophix_date may_day) <-> 2 <= year may_day \/ 5 <= month may_day).
Proof.
  destruct may_day_valid as [Hv _]. split; [exact Hv |].
  destruct (prophix_raises_iff may_day Hv) as [_ Hret]. exact Hret.
Defined.

Lemma fiscal_year_last_day_witness :
  2 <= 2028 <= 9999 /\ check_time_fields 5 30 0 0 = true /\
  get_prophix_date (mk_datetime 2028 4 30 5 30 0 0) = Ok "2027D366".
Proof.
  assert (2 <= 2028 <= 9999) as Hy by lia.
  split; [exact Hy |]. split; [reflexivity |].
  exact (fiscal_year_last_day 2028 5 30 0 0 Hy eq_refl).
Defined.

Lemma prophix_injective_witness :
  valid may_day /\ valid may_day_late /\
  get_prophix_date may_day = Ok "2026D001" /\
  get_prophix_date may_day_late = Ok "2026D001" /\
  year may_day = year may_day_late /\ month may_day = month may_day_late /\
  day may_day = day may_day_late.
Proof.
  destruct may_day_valid as [Hv _]. pose proof may_day_late_valid as Hv'.
  assert (get_prophix_date may_day = Ok "2026D001") as H1 by reflexivity.
  assert (get_prophix_date may_day_late = Ok "2026D001") as H2 by reflexivity.
  split; [exact Hv |]. split; [exact Hv' |]. split; [exact H1 |].
  split; [exact H2 |].
  exact (prophix_injective may_day may_day_late "2026D001" Hv Hv' H1 H2).
Defined.

Lemma raymer_temp_only_rows :
  process_data (payload_of raymer_temp_only) may_day =
  Ok [mk_row "2026D001" "2026-05-01" "Raymer"
        PNone PNone PNone (PStr "20") PNone PNone PNone PNone].
Proof. vm_compute. reflexivity. Qed.

Lemma no_rows_only_without_data_witness :
  process_data (payload_of raymer_temp_only) may_day =
    Ok [mk_row "2026D001" "2026-05-01" "Raymer"
          PNone PNone PNone (PStr "20") PNone PNone PNone PNone] /\
  exists row,
    row ∈ [mk_row "2026D001" "2026-05-01" "Raymer"
             PNone PNone PNone (PStr "20") PNone PNone PNone PNone] /\
    Location row = "Raymer".
Proof.
  split; [exact raymer_temp_only_rows |].
  destruct (no_rows_only_without_data _ _ _ raymer_temp_only_rows) as [_ Hrow].
  apply Hrow. discriminate.
Defined.

(** The dictionaries of the sample without a Buff station. *)
Example no_buff_frame :
  process_data (payload_of no_buff) may_day =
  Ok [mk_row "2026D001" "2026-05-01" "Summit"
          (PStr "") (PStr "") (PStr "") (PStr "") (PStr "") (PStr "") (PStr "") (PStr "");
        mk_row "2026D001" "2026-05-01" "RV_Bowl"
          (PStr "") (PStr "88") (PStr "") (PStr "") (PStr "") (PStr "") (PStr "") (PStr "");
        mk_row "2026D001" "2026-05-01" "Raymer"
          PNone PNone PNone PNone PNone PNone (PInt 35) PNone;
        mk_row "2026D001" "2026-05-01" "MidMtn"
          PNone (PStr "") (PStr "") (PStr "") (PStr "") (PStr "") (PStr "") (PStr "");
        mk_row "2026D001" "2026-05-01" "Base"
          (PStr "") (PStr "") (PStr "") (PInt 40) (PStr "") (PStr "") (PStr "") (PStr "")].
Proof. vm_compute. reflexivity. Qed.

Lemma one_row_per_target_witness :
  process_data (payload_of no_buff) may_day =
    Ok [mk_row "2026D001" "2026-05-01" "Summit"
          (PStr "") (PStr "") (PStr "") (PStr "") (PStr "") (PStr "") (PStr "") (PStr "");
        mk_row "2026D001" "2026-05-01" "RV_Bowl"
          (PStr "") (PStr "88") (PStr "") (PStr "") (PStr "") (PStr "") (PStr "") (PStr "");
        mk_row "2026D001" "2026-05-01" "Raymer"
          PNone PNone PNone PNone PNone PNone (PInt 35) PNone;
        mk_row "2026D001" "2026-05-01" "MidMtn"
          PNone (PStr "") (PStr "") (PStr "") (PStr "") (PStr "") (PStr "") (PStr "");
        mk_row "2026D001" "2026-05-01" "Base"
          (PStr "") (PStr "") (PStr "") (PInt 40) (PStr "") (PStr "") (PStr "") (PStr "")] /\
  NoDup ["Summit"; "RV_Bowl"; "Raymer"; "MidMtn"; "Base"] /\
  (5 <= 6)%nat.
Proof.
  split; [exact no_buff_frame |].
  exact (one_row_per_target _ _ _ no_buff_frame).
Defined.

Lemma rows_carry_run_date_witness :
  process_data (payload_of no_buff) may_day =
    Ok [mk_row "2026D001" "2026-05-01" "Summit"
          (PStr "") (PStr "") (PStr "") (PStr "") (PStr "") (PStr "") (PStr "") (PStr "");
        mk_row "2026D001" "2026-05-01" "RV_Bowl"
          (PStr "") (PStr "88") (PStr "") (PStr "") (PStr "") (PStr "") (PStr "") (PStr "");
        mk_row "2026D001" "2026-05-01" "Raymer"
          PNone PNone PNone PNone PNone PNone (PInt 35) PNone;
        mk_row "2026D001" "2026-05-01" "MidMtn"
          PNone (PStr "") (PStr "") (PStr "") (PStr "") (PStr "") (PStr "") (PStr "");
        mk_row "2026D001" "2026-05-01" "Base"
          (PStr "") (PStr "") (PStr "") (PInt 40) (PStr "") (PStr "") (PStr "") (PStr "")] /\
  valid may_day /\ 1000 <= year may_day /\
  get_prophix_date may_day = Ok "2026D001" /\
  "2026-05-01" = iso_date may_day /\ String.length "2026-05-01" = 10%nat.
Proof.
  assert (1000 <= year may_day) as Hy by (cbn; lia).
  destruct may_day_valid as [Hv _].
  destruct (rows_carry_run_date _ _ _
              (mk_row "2026D001" "2026-05-01" "Base"
                 (PStr "") (PStr "") (PStr "") (PInt 40)
                 (PStr "") (PStr "") (PStr "") (PStr ""))
              no_buff_frame) as [Hcode Hdate].
  { do 4 apply list_elem_of_further. apply list_elem_of_here. }
  split; [exact no_buff_frame |]. split; [exact Hv |]. split; [exact Hy |].
  split; [exact Hcode |]. exact (Hdate Hv Hy).
Defined.

Lemma data_not_a_list_witness :
  null_data !! "data" = Some PNone /\
  valid may_day /\ (2 <= year may_day \/ 5 <= month may_day) /\
  process_data (PDict null_data) may_day = Raise TypeError.
Proof.
  assert (null_data !! "data" = Some PNone) as Hdata by reflexivity.
  destruct may_day_valid as [Hv Hr].
  split; [exact Hdata |]. split; [exact Hv |]. split; [exact Hr |].
  destruct (data_not_a_list null_data PNone may_day Hdata Hv Hr) as [Hscalar _].
  exact (Hscalar I).
Defined.

Lemma non_record_reached_witness :
  null_first !! "data" = Some (PList ([] ++ PNone :: all_stations)) /\
  Forall is_record [] /\ ~ is_record PNone /\
  Exists (fun keywords => Forall (fun r => ~ name_has keywords r) [])
         scan_keywords /\
  valid may_day /\ (2 <= year may_day \/ 5 <= month may_day) /\
  process_data (PDict null_first) may_day = Raise AttributeError.
Proof.
  assert (null_first !! "data" = Some (PList ([] ++ PNone :: all_stations)))
    as Hdata by reflexivity.
  assert (~ is_record PNone) as Hx by (intros [d Hd]; discriminate Hd).
  assert (Exists (fun keywords => Forall (fun r => ~ name_has keywords r) [])
                 scan_keywords) as Hscan
    by (rewrite scan_keywords_eq; apply Exists_cons_hd, Forall_nil_2).
  destruct may_day_valid as [Hv Hr].
  split; [exact Hdata |]. split; [apply Forall_nil_2 |]. split; [exact Hx |].
  split; [exact Hscan |]. split; [exact Hv |]. split; [exact Hr |].
  exact (non_record_reached null_first [] all_stations PNone may_day
           Hdata (Forall_nil_2 _) Hx Hscan Hv Hr).
Defined.

Lemma exists_name_has (keywords : list string) (rows : list pyval) :
  existsb (name_hasb keywords) rows = true -> Exists (name_has keywords) rows.
Proof.
  intros Hex. apply existsb_exists in Hex as (r & Hin & Hr).
  apply Exists_exists. exists r. split; [by apply list_elem_of_In |].
  by apply name_hasb_spec.
Qed.

Lemma all_stations_records : Forall is_record all_stations.
Proof. records. Qed.

Lemma all_stations_found :
  Forall (fun keywords => Exists (name_has keywords) all_stations) scan_keywords.
Proof.
  rewrite scan_keywords_eq.
  repeat (apply Forall_cons; split;
          [apply exists_name_has; vm_compute; reflexivity |]).
  apply Forall_nil_2.
Qed.

Lemma trailing_values_ignored_witness :
  stations_then_junk !! "data" = Some (PList (all_stations ++ [PNone; PInt 3])) /\
  Forall is_record all_stations /\
  Forall (fun keywords => Exists (name_has keywords) all_stations) scan_keywords /\
  valid may_day /\ (2 <= year may_day \/ 5 <= month may_day) /\
  process_data (PDict stations_then_junk) may_day =
  process_data (payload_of all_stations) may_day.
Proof.
  assert (stations_then_junk !! "data"
          = Some (PList (all_stations ++ [PNone; PInt 3]))) as Hdata
    by reflexivity.
  destruct may_day_valid as [Hv Hr].
  split; [exact Hdata |]. split; [exact all_stations_records |].
  split; [exact all_stations_found |]. split; [exact Hv |]. split; [exact Hr |].
  destruct (trailing_values_ignored stations_then_junk all_stations
              [PNone; PInt 3] may_day Hdata all_stations_records
              all_stations_found Hv Hr) as [_ Heq].
  exact Heq.
Defined.

Lemma no_raymer_records : Forall is_record no_raymer.
Proof. records. Qed.

Lemma no_raymer_none (k : string) :
  List.find (name_hasb [k]) no_raymer = None ->
  Forall (fun r => ~ name_has [k] r) no_raymer.
Proof. apply find_no_name_has. Qed.

Lemma no_raymer_station_blank_row_witness :
  Forall is_record no_raymer /\
  Forall (fun r => ~ name_has ["raymer 9,360"] r) no_raymer /\
  Forall (fun r => ~ name_has ["raymer wind"] r) no_raymer /\
  exists merged,
    next_station "raymer 9,360" no_raymer = Ok (PDict ∅) /\
    next_station "raymer wind" no_raymer = Ok (PDict ∅) /\
    raymer_merged (PDict ∅) (PDict ∅) = Ok merged /\
    truthy merged = true /\
    new_row "2026D001" may_day "Raymer" merged =
      Ok (blank_raymer_row "2026D001" may_day) /\
    exists extracted_rows,
      scan_targets target_defs "2026D001" may_day merged no_raymer
        = Ok extracted_rows /\
      blank_raymer_row "2026D001" may_day ∈ extracted_rows.
Proof.
  pose proof (no_raymer_none "raymer 9,360" eq_refl) as Ht.
  pose proof (no_raymer_none "raymer wind" eq_refl) as Hw.
  split; [exact no_raymer_records |]. split; [exact Ht |]. split; [exact Hw |].
  exact (no_raymer_station_blank_row no_raymer "2026D001" may_day
           no_raymer_records Ht Hw).
Defined.

(** The dictionaries of that sample: the Raymer row holds [None] where
    the rows of Summit and Base hold the empty string. *)
Example no_raymer_frame :
  process_data (payload_of no_raymer) may_day =
  Ok [mk_row "2026D001" "2026-05-01" "Summit"
        (PStr "") (PStr "") (PStr "") (PInt 12) (PStr "") (PStr "") (PStr "") (PStr "");
      mk_row "2026D001" "2026-05-01" "Raymer"
        PNone PNone PNone PNone PNone PNone PNone PNone;
      mk_row "2026D001" "2026-05-01" "Base"
        (PStr "") (PStr "") (PStr "") (PInt 33) (PStr "") (PStr "") (PStr "") (PStr "")].
Proof. vm_compute. reflexivity. Qed.

Lemma failed_run :
  main may_day (Failed "timeout") one_row_world =
  Ok (mk_world (table one_row_world)
        ["Starting Daily Scrape..."; "Error fetching data: timeout";
         "API request failed (Check internet or URL)."] false).
Proof. reflexivity. Qed.

(** A run on the sample without a Buff station, on a table with one row. *)
Example second_write :
  main may_day (Body (payload_of no_buff)) one_row_world =
  Ok (mk_world
        (mk_table (Some (lines_text
           ["ProphixDate,Date,Location,NewSno,SnoDepth,SnoFall Tot,Max Temp,Min Temp,AvgWind,MaxGust,TotalWind";
            "2026D001,2026-05-01,Raymer,,,,,,,,";
            "2026D001,2026-05-01,Summit,,,,,,,,";
            "2026D001,2026-05-01,RV_Bowl,,88,,,,,,";
            "2026D001,2026-05-01,Raymer,,,,,,,35,";
            "2026D001,2026-05-01,MidMtn,,,,,,,,";
            "2026D001,2026-05-01,Base,,,,40,,,,"])) false)
        ["Starting Daily Scrape...";
         "SUCCESS: Appended 5 rows for 2026-05-01."] false).
Proof. vm_compute. reflexivity. Qed.

Lemma table_append_only_witness :
  main may_day (Body (payload_of no_buff)) one_row_world =
    Ok (mk_world
          (mk_table (Some (lines_text
             ["ProphixDate,Date,Location,NewSno,SnoDepth,SnoFall Tot,Max Temp,Min Temp,AvgWind,MaxGust,TotalWind";
              "2026D001,2026-05-01,Raymer,,,,,,,,";
              "2026D001,2026-05-01,Summit,,,,,,,,";
              "2026D001,2026-05-01,RV_Bowl,,88,,,,,,";
              "2026D001,2026-05-01,Raymer,,,,,,,35,";
              "2026D001,2026-05-01,MidMtn,,,,,,,,";
              "2026D001,2026-05-01,Base,,,,40,,,,"])) false)
          ["Starting Daily Scrape...";
           "SUCCESS: Appended 5 rows for 2026-05-01."] false) /\
  content (table one_row_world) =
    Some (lines_text [header_line; "2026D001,2026-05-01,Raymer,,,,,,,,"]) /\
  exists added,
    Some (lines_text
       ["ProphixDate,Date,Location,NewSno,SnoDepth,SnoFall Tot,Max Temp,Min Temp,AvgWind,MaxGust,TotalWind";
        "2026D001,2026-05-01,Raymer,,,,,,,,";
        "2026D001,2026-05-01,Summit,,,,,,,,";
        "2026D001,2026-05-01,RV_Bowl,,88,,,,,,";
        "2026D001,2026-05-01,Raymer,,,,,,,35,";
        "2026D001,2026-05-01,MidMtn,,,,,,,,";
        "2026D001,2026-05-01,Base,,,,40,,,,"]) =
    Some (lines_text [header_line; "2026D001,2026-05-01,Raymer,,,,,,,,"] +:+ added).
Proof.
  split; [exact second_write |]. split; [reflexivity |].
  exact (table_append_only _ _ _ _ _ second_write eq_refl).
Defined.

Lemma one_row_world_headed : headed (table one_row_world).
Proof. by exists ["2026D001,2026-05-01,Raymer,,,,,,,,"]. Qed.

(** Three runs from no table at all: a write, a failed fetch, a write. *)
Example three_runs :
  runs [(may_day, Body (payload_of no_buff));
        (may_day_late, Failed "timeout");
        (may_day_late, Body (payload_of raymer_temp_only))] new_world =
  Ok (mk_world
        (mk_table (Some (lines_text
           (header_line ::
            ["2026D001,2026-05-01,Summit,,,,,,,,";
             "2026D001,2026-05-01,RV_Bowl,,88,,,,,,";
             "2026D001,2026-05-01,Raymer,,,,,,,35,";
             "2026D001,2026-05-01,MidMtn,,,,,,,,";
             "2026D001,2026-05-01,Base,,,,40,,,,";
             "2026D001,2026-05-01,Raymer,,,,20,,,,"]))) false)
        ["Starting Daily Scrape...";
         "SUCCESS: Appended 5 rows for 2026-05-01.";
         "Starting Daily Scrape..."; "Error fetching data: timeout";
         "API request failed (Check internet or URL).";
         "Starting Daily Scrape...";
         "SUCCESS: Appended 1 rows for 2026-05-01."] false).
Proof. vm_compute. reflexivity. Qed.

Lemma header_kept_witness :
  headed (table new_world) /\
  runs [(may_day, Body (payload_of no_buff));
        (may_day_late, Failed "timeout");
        (may_day_late, Body (payload_of raymer_temp_only))] new_world =
    Ok (mk_world
          (mk_table (Some (lines_text
             (header_line ::
              ["2026D001,2026-05-01,Summit,,,,,,,,";
               "2026D001,2026-05-01,RV_Bowl,,88,,,,,,";
               "2026D001,2026-05-01,Raymer,,,,,,,35,";
               "2026D001,2026-05-01,MidMtn,,,,,,,,";
               "2026D001,2026-05-01,Base,,,,40,,,,";
               "2026D001,2026-05-01,Raymer,,,,20,,,,"]))) false)
          ["Starting Daily Scrape...";
           "SUCCESS: Appended 5 rows for 2026-05-01.";
           "Starting Daily Scrape..."; "Error fetching data: timeout";
           "API request failed (Check internet or URL).";
           "Starting Daily Scrape...";
           "SUCCESS: Appended 1 rows for 2026-05-01."] false) /\
  exists lines,
    lines_text
      (header_line ::
       ["2026D001,2026-05-01,Summit,,,,,,,,";
        "2026D001,2026-05-01,RV_Bowl,,88,,,,,,";
        "2026D001,2026-05-01,Raymer,,,,,,,35,";
        "2026D001,2026-05-01,MidMtn,,,,,,,,";
        "2026D001,2026-05-01,Base,,,,40,,,,";
        "2026D001,2026-05-01,Raymer,,,,20,,,,"])
    = lines_text (header_line :: lines).
Proof.
  split; [exact I |]. split; [exact three_runs |].
  exact (header_kept _ new_world _ I three_runs).
Defined.

Lemma locked_table_untouched_witness :
  locked (table locked_world) = true /\
  main may_day (Body (payload_of raymer_temp_only)) locked_world =
  Ok (mk_world (table locked_world)
        (log locked_world ++
         ["Starting Daily Scrape...";
          "ERROR: Could not write to BTAC_History.csv. Is the Excel file open?"])
        false).
Proof.
  split; [reflexivity |].
  destruct (locked_table_untouched may_day (payload_of raymer_temp_only)
              locked_world eq_refl) as [_ Hlog].
  exact (Hlog _ _ eq_refl raymer_temp_only_rows eq_refl).
Defined.

Lemma nothing_fetched_witness :
  log_fails one_row_world = false /\
  truthy (PDict ∅) = false /\
  main may_day (Body (PDict ∅)) one_row_world =
  Ok (mk_world (table one_row_world)
        (log one_row_world ++
         ["Starting Daily Scrape...";
          "API request failed (Check internet or URL)."]) false).
Proof.
  split; [reflexivity |]. split; [reflexivity |].
  destruct (nothing_fetched may_day (Body (PDict ∅)) one_row_world eq_refl)
    as [_ Hfalsy].
  exact (Hfalsy (PDict ∅) eq_refl eq_refl).
Defined.




Lemma table_independent_of_log_witness :
  main may_day (Body (payload_of no_buff)) one_row_world =
    Ok (mk_world
          (mk_table (Some (lines_text
             ["ProphixDate,Date,Location,NewSno,SnoDepth,SnoFall Tot,Max Temp,Min Temp,AvgWind,MaxGust,TotalWind";
              "2026D001,2026-05-01,Raymer,,,,,,,,";
              "2026D001,2026-05-01,Summit,,,,,,,,";
              "2026D001,2026-05-01,RV_Bowl,,88,,,,,,";
              "2026D001,2026-05-01,Raymer,,,,,,,35,";
              "2026D001,2026-05-01,MidMtn,,,,,,,,";
              "2026D001,2026-05-01,Base,,,,40,,,,"])) false)
          ["Starting Daily Scrape...";
           "SUCCESS: Appended 5 rows for 2026-05-01."] false) /\
  exists w2,
    main may_day (Body (payload_of no_buff))
         (mk_world (table one_row_world) ["an older line"] true) = Ok w2 /\
    table w2 =
      mk_table (Some (lines_text
        ["ProphixDate,Date,Location,NewSno,SnoDepth,SnoFall Tot,Max Temp,Min Temp,AvgWind,MaxGust,TotalWind";
         "2026D001,2026-05-01,Raymer,,,,,,,,";
         "2026D001,2026-05-01,Summit,,,,,,,,";
         "2026D001,2026-05-01,RV_Bowl,,88,,,,,,";
         "2026D001,2026-05-01,Raymer,,,,,,,35,";
         "2026D001,2026-05-01,MidMtn,,,,,,,,";
         "2026D001,2026-05-01,Base,,,,40,,,,"])) false.
Proof.
  split; [exact second_write |].
  exact (table_independent_of_log may_day (Body (payload_of no_buff))
           (table one_row_world) [] ["an older line"] false true _ second_write).
Defined.

Lemma successful_run_witness :
  station_payload (payload_of no_buff) no_buff /\
  valid may_day /\ 1000 <= year may_day /\
  locked (table one_row_world) = false /\ log_fails one_row_world = false /\
  exists df,
    process_data (payload_of no_buff) may_day = Ok df /\
    (1 <= length df <= 6)%nat /\
    main may_day (Body (payload_of no_buff)) one_row_world =
    Ok (mk_world
          (mk_table
             (Some (default "" (content (table one_row_world))
                    +:+ (if isfile (table one_row_world) then ""
                         else lines_text [header_line])
                    +:+ lines_text (csv_rows df))) false)
          (log one_row_world ++
           ["Starting Daily Scrape...";
            "SUCCESS: Appended " +:+ pretty (length df)
              +:+ " rows for " +:+ iso_date may_day +:+ "."])
          false).
Proof.
  assert (station_payload (payload_of no_buff) no_buff) as Hp
    by (apply payload_of_stations; records).
  assert (1000 <= year may_day) as Hy by (cbn; lia).
  destruct may_day_valid as [Hv _].
  split; [exact Hp |]. split; [exact Hv |]. split; [exact Hy |].
  split; [reflexivity |]. split; [reflexivity |].
  exact (successful_run _ _ _ one_row_world Hp Hv Hy eq_refl eq_refl).
Defined.
